(** * nbodykit: continuous-integration configuration, documentation
    environment and the mesh overview notebook.

    The repository files modelled here are declarative: [.travis.yml]
    (the Travis job description), [environment.yml] (the conda manifest of
    the documentation environment) and [docs/source/mesh/overview.ipynb]
    (a notebook with its recorded outputs).  The embedding keeps the text
    of every command and manifest entry as it is written in those files
    and gives it meaning through a small model of the shell that Travis
    runs the commands in. *)

From Stdlib Require Import String Ascii List ZArith Lia Bool.
From stdpp Require Import base gmap strings list pretty.
Import ListNotations.

Local Open Scope stdpp_scope.

(** ** Text

    The double quote is written by its code, so that the lines of the
    configuration can be given exactly as they stand in the files. *)

Definition dquote : string := String (ascii_of_nat 34) EmptyString.
Definition dq (s : string) : string := dquote +:+ s +:+ dquote.

(** [split_at c s] cuts [s] at the first occurrence of [c]. *)
Fixpoint split_at (c : ascii) (s : string) : option (string * string) :=
  match s with
  | EmptyString => None
  | String a s' =>
      if Ascii.eqb a c then Some (EmptyString, s')
      else match split_at c s' with
           | Some (l, r) => Some (String a l, r)
           | None => None
           end
  end.

Fixpoint strip_prefix (p s : string) : option string :=
  match p, s with
  | EmptyString, _ => Some s
  | String a p', String b s' => if Ascii.eqb a b then strip_prefix p' s' else None
  | String _ _, EmptyString => None
  end.

Definition strip_suffix (p s : string) : option string :=
  String.rev <$> strip_prefix (String.rev p) (String.rev s).

Definition join (sep : string) (ws : list string) : string := String.concat sep ws.

(** ** Shell words

    Every entry of a [.travis.yml] phase is one line handed to bash.  The
    lines of this repository use blanks, single and double quotes and
    [$NAME] parameter expansion, and nothing else of the shell grammar
    (no backslash, no backquote, no brace or pathname expansion that
    applies).  A line is first cut into words made of literal text and
    parameter references ([lex]); the words are then expanded in the
    variables of the shell ([expand]), an unquoted reference being split
    into fields at blanks. *)

Module Shell.

Inductive quote := QNone | QSingle | QDouble.

Inductive part :=
| Lit (text : string)
| Param (name : string) (quoted : bool).

Definition word := list part.

(** Lexer state: quoting mode, the name being read after a [$], the
    parts of the word being built (latest first; [None] when no word has
    been started) and the finished words (latest first). *)
Record lexer := Lexer {
  lq : quote;
  lvar : option string;
  lcur : option word;
  ldone : list word
}.

Definition is_name_char (c : ascii) : bool :=
  let n := nat_of_ascii c in
  ((48 <=? n) && (n <=? 57)) || ((65 <=? n) && (n <=? 90))
  || ((97 <=? n) && (n <=? 122)) || (n =? 95).

Definition is_blank (c : ascii) : bool :=
  let n := nat_of_ascii c in (n =? 32) || (n =? 9).

(** The three characters with a meaning of their own, by code: the
    single quote (39), the double quote (34) and the dollar sign (36). *)
Definition is_squote (c : ascii) : bool := nat_of_ascii c =? 39.
Definition is_dquote (c : ascii) : bool := nat_of_ascii c =? 34.
Definition is_dollar (c : ascii) : bool := nat_of_ascii c =? 36.
Definition dollar : ascii := ascii_of_nat 36.

Definition snoc (s : string) (c : ascii) : string := s +:+ String c EmptyString.

Definition add_char (c : ascii) (cur : option word) : option word :=
  match cur with
  | Some (Lit l :: ps) => Some (Lit (snoc l c) :: ps)
  | Some ps => Some (Lit (String c EmptyString) :: ps)
  | None => Some [Lit (String c EmptyString)]
  end.

(** An opening quote starts a word even when nothing follows in it. *)
Definition open_word (cur : option word) : option word :=
  match cur with
  | Some (Lit l :: ps) => cur
  | Some ps => Some (Lit EmptyString :: ps)
  | None => Some [Lit EmptyString]
  end.

Definition add_param (x : string) (quoted : bool) (cur : option word) : option word :=
  Some (Param x quoted :: default [] cur).

Definition end_word (cur : option word) (done : list word) : list word :=
  match cur with
  | Some ps => rev ps :: done
  | None => done
  end.

Definition quoted_in (q : quote) : bool :=
  match q with QNone => false | _ => true end.

(** A [$] not followed by a name stands for itself. *)
Definition flush_var (st : lexer) : lexer :=
  match lvar st with
  | None => st
  | Some EmptyString => Lexer (lq st) None (add_char dollar (lcur st)) (ldone st)
  | Some x => Lexer (lq st) None (add_param x (quoted_in (lq st)) (lcur st)) (ldone st)
  end.

Definition step_plain (st : lexer) (c : ascii) : lexer :=
  match lq st with
  | QNone =>
      if is_blank c then Lexer QNone None None (end_word (lcur st) (ldone st))
      else if is_squote c then Lexer QSingle None (open_word (lcur st)) (ldone st)
      else if is_dquote c then Lexer QDouble None (open_word (lcur st)) (ldone st)
      else if is_dollar c then Lexer QNone (Some EmptyString) (lcur st) (ldone st)
      else Lexer QNone None (add_char c (lcur st)) (ldone st)
  | QSingle =>
      if is_squote c then Lexer QNone None (lcur st) (ldone st)
      else Lexer QSingle None (add_char c (lcur st)) (ldone st)
  | QDouble =>
      if is_dquote c then Lexer QNone None (lcur st) (ldone st)
      else if is_dollar c then Lexer QDouble (Some EmptyString) (lcur st) (ldone st)
      else Lexer QDouble None (add_char c (lcur st)) (ldone st)
  end.

Definition step (st : lexer) (c : ascii) : lexer :=
  match lvar st with
  | Some x =>
      if is_name_char c then Lexer (lq st) (Some (snoc x c)) (lcur st) (ldone st)
      else step_plain (flush_var st) c
  | None => step_plain st c
  end.

Fixpoint lex_from (s : string) (st : lexer) : lexer :=
  match s with
  | EmptyString => st
  | String c s' => lex_from s' (step st c)
  end.

Definition lex (line : string) : list word :=
  let st := flush_var (lex_from line (Lexer QNone None None [])) in
  rev (end_word (lcur st) (ldone st)).

(** *** Expansion *)

Definition end_field (cur : option string) (done : list string) : list string :=
  match cur with
  | Some w => done ++ [w]
  | None => done
  end.

(** Field splitting of the value of an unquoted reference: blanks end
    the current field, every other character is taken literally. *)
Fixpoint split_value (v : string) (cur : option string) (done : list string)
  : option string * list string :=
  match v with
  | EmptyString => (cur, done)
  | String c v' =>
      if is_blank c then split_value v' None (end_field cur done)
      else split_value v' (Some (snoc (default EmptyString cur) c)) done
  end.

Section WithEnv.
(** [split] is [false] where bash performs no field splitting (inside
    [[ ... ]] and in the assignments of [export]); [ρ] gives the value
    of a variable, the empty string when it is unset. *)
Variable split : bool.
Variable ρ : string → string.

Definition expand_part (acc : option string * list string) (p : part)
  : option string * list string :=
  match p with
  | Lit l => (Some (default EmptyString acc.1 +:+ l), acc.2)
  | Param x quoted =>
      if quoted || negb split
      then (Some (default EmptyString acc.1 +:+ ρ x), acc.2)
      else split_value (ρ x) acc.1 acc.2
  end.

Definition expand_word (w : word) : list string :=
  let acc := fold_left expand_part w (None, []) in
  end_field acc.1 acc.2.

Definition expand (ws : list word) : list string :=
  concat (map expand_word ws).
End WithEnv.

(** *** The text of a word

    The values of a word's parts, one after the other: what the word
    expands to when nothing in it is split. *)

Definition part_text (ρ : string → string) (p : part) : string :=
  match p with
  | Lit l => l
  | Param x _ => ρ x
  end.

Definition word_text (ρ : string → string) (w : word) : string :=
  foldr (λ p t, part_text ρ p +:+ t) EmptyString w.

(** A part that yields a field whatever its value. *)
Definition anchors (p : part) : bool :=
  match p with
  | Lit _ => true
  | Param _ quoted => quoted
  end.

Fixpoint blank_free (s : string) : bool :=
  match s with
  | EmptyString => true
  | String c s' => negb (is_blank c) && blank_free s'
  end.

(** A part whose expansion cannot start a new field. *)
Definition splits_nothing (ρ : string → string) (p : part) : bool :=
  match p with
  | Lit _ => true
  | Param x quoted => quoted || blank_free (ρ x)
  end.

(** The argument vector of a command line, and the operands of a
    [[ ... ]] conditional. *)
Definition shell_words (ρ : string → string) (line : string) : list string :=
  expand true ρ (lex line).
Definition test_words (ρ : string → string) (cond : string) : list string :=
  expand false ρ (lex cond).

End Shell.

(** ** The Travis configuration, [.travis.yml]

    Field for field as the YAML document has it.  Scalars are kept as the
    strings Travis passes on: the [python] entries [2.7], [3.6], [3.7]
    reach the job as the text of [TRAVIS_PYTHON_VERSION]; the comment
    after [export PYTHONHTTPSVERIFY=0] is a YAML comment and is not part
    of the command.  The encrypted [password.secure] blob is opaque to
    every phase and is recorded by its presence only. *)

Module Travis.

Record on_block := {
  on_tags : bool;
  on_condition : option string
}.

Record deploy_entry := {
  provider : string;
  distributions : string;
  user : string;
  password_secure : bool;
  on : on_block
}.

Record config := {
  language : string;
  python : list string;
  env : list string;
  cache_directories : list string;
  before_install : list string;
  install : list string;
  script : list string;
  after_success : list string;
  deploy : list deploy_entry
}.

Definition travis_yml : config := {|
  language := "python";
  python := ["2.7"; "3.6"; "3.7"];
  env := ["NUMPY_VERSION=1.15"];
  cache_directories :=
    ["$HOME/.cache/pip"; "$HOME/.conda"; "$HOME/.astropy/cache/halotools"];
  before_install :=
    ["wget http://repo.continuum.io/miniconda/Miniconda3-latest-Linux-x86_64.sh -O miniconda.sh";
     "chmod +x miniconda.sh";
     "./miniconda.sh -b -p $HOME/miniconda";
     "export PATH=$HOME/miniconda/bin:$PATH";
     "export PYTHONHTTPSVERIFY=0";
     "conda update --yes conda"];
  install :=
    ["conda create --yes -n test python=$TRAVIS_PYTHON_VERSION";
     "source activate test";
     (* search astropy and bccp channels for dependencies *)
     "conda config --add channels astropy";
     "conda config --add channels bccp";
     (* install specific numpy version and pin it *)
     "conda install --yes numpy=$NUMPY_VERSION";
     "echo " +:+ dq "numpy $NUMPY_VERSION.*" +:+ " >> $CONDA_PREFIX/conda-meta/pinned";
     (* install base dependencies *)
     "conda install --yes --file requirements.txt";
     (* install base dependencies *)
     "conda install --yes --file requirements-extras.txt";
     (* submitting coverage to coveralls *)
     "pip install coveralls";
     (* install nbodykit itself *)
     "pip install .[extras]"];
  script :=
    ["python run-tests.py -v --mpirun='mpirun -n 4' --with-coverage"];
  after_success := ["coveralls"];
  deploy :=
    [ {| provider := "pypi";
         distributions := "sdist";
         user := "nickhand";
         password_secure := true;
         on := {| on_tags := true;
                  on_condition := Some ("$TRAVIS_PYTHON_VERSION = " +:+ dq "2.7") |} |} ]
|}.

(** *** Build matrix

    One job per pair of a [python] entry and an [env] entry.  A build is
    for a tag when Travis was triggered by a pushed tag, whose name it
    then exports as [TRAVIS_TAG]. *)

Record build := { tag : option string }.

Record job := {
  job_python : string;
  job_env : string
}.

Definition matrix (c : config) : list job :=
  p ← python c; e ← env c; [ {| job_python := p; job_env := e |} ].

(** The assignments of an [env] line: blank-separated [NAME=value]. *)
Definition env_assignments (line : string) : list (string * string) :=
  omap (split_at "=") (Shell.shell_words (λ _, EmptyString) line).

(** The variables a job starts with, on top of those of the machine. *)
Definition job_vars (b : build) (j : job) (machine : gmap string string)
  : gmap string string :=
  foldr (λ xv m, <[xv.1 := xv.2]> m)
    (<["TRAVIS_PYTHON_VERSION" := job_python j]>
      (<["TRAVIS_TAG" := default EmptyString (tag b)]> machine))
    (env_assignments (job_env j)).

End Travis.

(** ** Package specifications of conda

    The forms that occur in the files: [name], [name=version] on a command
    line or in a manifest (any version of that series), [name==version]
    (that version), and the lines of the [conda-meta/pinned] file, a name
    followed by a version pattern such as [1.15.*]. *)

Module Conda.

Inductive constraint :=
| AnyVersion
| Series (prefix : string)
| Exactly (version : string).

Definition spec : Type := string * constraint.

(** [v] is of the series [p]: it is [p] itself or continues it after a dot. *)
Definition in_series (p v : string) : bool :=
  String.eqb v p || String.prefix (p +:+ ".") v.

Definition satisfies (c : constraint) (v : string) : bool :=
  match c with
  | AnyVersion => true
  | Series p => in_series p v
  | Exactly w => String.eqb v w
  end.

Definition parse_spec (s : string) : spec :=
  match split_at "=" s with
  | None => (s, AnyVersion)
  | Some (n, v) =>
      match strip_prefix "=" v with
      | Some w => (n, Exactly w)
      | None => (n, Series v)
      end
  end.

Definition pattern (pat : string) : constraint :=
  match strip_suffix ".*" pat with
  | Some p => Series p
  | None => Exactly pat
  end.

Definition parse_pin (line : string) : option spec :=
  match Shell.shell_words (λ _, EmptyString) line with
  | [n] => Some (n, AnyVersion)
  | n :: pat :: _ => Some (n, pattern pat)
  | [] => None
  end.

(** A requested specification is met by the packages of an environment
    when the package is there in a version that satisfies it. *)
Definition installed (pkgs : gmap string string) (sp : spec) : bool :=
  match pkgs !! sp.1 with
  | Some v => satisfies sp.2 v
  | None => false
  end.

(** A pin is respected by an installation that takes the environment
    from [pkgs] to [pkgs']: the pinned package is not removed, and where
    it is present afterwards its version satisfies the pin. *)
Definition respected (pkgs pkgs' : gmap string string) (sp : spec) : bool :=
  match pkgs' !! sp.1 with
  | Some v => satisfies sp.2 v
  | None => match pkgs !! sp.1 with Some _ => false | None => true end
  end.

(** The arguments of [conda install]: options start with a dash and,
    [--file F] apart, take no argument in the lines of this repository;
    [--file F] names a requirements file; the rest are specifications. *)
Fixpoint install_args (args : list string) : list string * list string :=
  match args with
  | [] => ([], [])
  | a :: rest =>
      if String.eqb a "--file" then
        match rest with
        | f :: rest' => let r := install_args rest' in (r.1, f :: r.2)
        | [] => ([], [])
        end
      else if String.prefix "-" a then install_args rest
      else let r := install_args rest in (a :: r.1, r.2)
  end.

End Conda.

(** ** A Travis job

    The state a job's commands act on: the variables of the job's shell,
    the text files the commands write (by lines), and the packages of the
    active conda environment with their versions.  The variables are
    those that the machine, Travis and the lines of the job set; the
    parameters that bash keeps by itself, such as [_], are not tracked. *)

Module Job.
Import Travis.

Record state := State {
  vars : gmap string string;
  files : gmap string (list string);
  pkgs : gmap string string
}.

Definition value (vs : gmap string string) (x : string) : string :=
  default EmptyString (vs !! x).

(** [export] takes assignments, which bash does not split into fields. *)
Definition argv (vs : gmap string string) (line : string) : list string :=
  if String.prefix "export " line
  then Shell.test_words (value vs) line
  else Shell.shell_words (value vs) line.

Inductive cmd :=
| Export (x v : string)
| Append (text path : string)
| Activate (name : string)
| CondaInstall (specs : list string) (requirements : list string)
| Program (args : list string)
| Unsupported.

(** [echo w ... >> path] *)
Fixpoint split_redirect (ws : list string) : option (list string * string) :=
  match ws with
  | [] => None
  | w :: rest =>
      if String.eqb w ">>" then
        match rest with
        | [p] => Some ([], p)
        | _ => None
        end
      else match split_redirect rest with
           | Some (l, p) => Some (w :: l, p)
           | None => None
           end
  end.

Definition classify (ws : list string) : cmd :=
  match ws with
  | [] => Unsupported
  | w :: args =>
      if String.eqb w "export" then
        match args with
        | [a] => match split_at "=" a with
                 | Some (x, v) => Export x v
                 | None => Unsupported
                 end
        | _ => Unsupported
        end
      else if String.eqb w "echo" then
        match split_redirect args with
        | Some (t, p) => Append (join " " t) p
        | None =>
            (* without [>>] the text goes to the log; a [>>] that is not
               followed by exactly one word is an error *)
            if existsb (String.eqb ">>") args then Unsupported else Program ws
        end
      else if String.eqb w "source" then
        match args with
        | [a; n] => if String.eqb a "activate" then Activate n else Unsupported
        | _ => Unsupported
        end
      else if String.eqb w "conda" then
        match args with
        | a :: rest =>
            if String.eqb a "install"
            then let r := Conda.install_args rest in CondaInstall r.1 r.2
            else Program ws
        | [] => Program ws
        end
      else Program ws
  end.

(** The variables that activating a conda environment sets. *)
Definition conda_var (x : string) : bool :=
  String.eqb x "PATH" || String.eqb x "PS1" || String.prefix "CONDA_" x.

Definition pinned_path (vs : gmap string string) : string :=
  value vs "CONDA_PREFIX" +:+ "/conda-meta/pinned".

Definition pins (s : state) : list Conda.spec :=
  omap Conda.parse_pin (default [] (files s !! pinned_path (vars s))).

(** What a command does to the state when it succeeds.

    - [export] and [echo ... >>] are the shell's own.
    - [source activate] runs conda's activation script in the job's
      shell: it sets conda's variables and switches the active
      environment; the prefix it exports has no blank (the Miniconda
      installer refuses such a directory).
    - [conda install] leaves variables and text files alone; afterwards
      the requested specifications are installed and every line of the
      active environment's [conda-meta/pinned] is respected.  What the
      requirements files ask for is not known here and is left free.
    - Every other program runs as a child process: it cannot change the
      variables of the job's shell; files and packages are left free. *)
Inductive exec : cmd → state → state → Prop :=
| exec_export x v s :
    exec (Export x v) s (State (<[x:=v]> (vars s)) (files s) (pkgs s))
| exec_append t p s :
    exec (Append t p) s
      (State (vars s) (<[p := default [] (files s !! p) ++ [t]]> (files s)) (pkgs s))
| exec_activate n s vs' ps' :
    (∀ x, conda_var x = false → vs' !! x = vars s !! x) →
    Shell.blank_free (value vs' "CONDA_PREFIX") = true →
    exec (Activate n) s (State vs' (files s) ps')
| exec_conda_install specs reqs s ps' :
    forallb (Conda.installed ps') (map Conda.parse_spec specs) = true →
    forallb (Conda.respected (pkgs s) ps') (pins s) = true →
    exec (CondaInstall specs reqs) s (State (vars s) (files s) ps')
| exec_program args s fs' ps' :
    exec (Program args) s (State (vars s) fs' ps').

(** The variables a command assigns. *)
Definition touches (c : cmd) (x : string) : bool :=
  match c with
  | Export y _ => String.eqb x y
  | Activate _ => conda_var x
  | _ => false
  end.

(** A line keeps a variable when, whatever the shell holds, the command
    it stands for does not assign it. *)
Definition keeps (x : string) (line : string) : Prop :=
  ∀ vs, touches (classify (argv vs line)) x = false.

(** The variables that lines of [.travis.yml] assign. *)
Definition script_sets (x : string) : bool :=
  conda_var x || String.eqb x "PYTHONHTTPSVERIFY".

(** A list of lines runs to the end when every line succeeds. *)
Inductive run : list string → state → state → Prop :=
| run_nil s : run [] s s
| run_cons line lines s s1 s2 :
    exec (classify (argv (vars s) line)) s s1 →
    run lines s1 s2 →
    run (line :: lines) s s2.

(** The lines of a job, in the order Travis runs them. *)
Definition job_lines (c : config) : list string :=
  before_install c ++ install c ++ script c ++ after_success c.

(** [after_success] does not decide the build: however far it gets, the
    job goes on to [deploy]. *)
Definition reach (lines : list string) (s s' : state) : Prop :=
  ∃ k, run (take k lines) s s'.

(** *** numpy

    The two lines of [install] under the comment "install specific numpy
    version and pin it", and what is said of a state about numpy. *)

Definition numpy_line : string := "conda install --yes numpy=$NUMPY_VERSION".

Definition pin_line : string :=
  "echo " +:+ dq "numpy $NUMPY_VERSION.*" +:+ " >> $CONDA_PREFIX/conda-meta/pinned".

Definition numpy_115 (s : state) : Prop :=
  ∃ v, pkgs s !! "numpy" = Some v ∧ Conda.in_series "1.15" v = true.

Definition numpy_pinned (s : state) : Prop :=
  ("numpy", Conda.Series "1.15") ∈ pins s.

(** The requirements files that the lines of [install] hand to conda. *)
Definition requirement_files (vs : gmap string string) (c : config) : list string :=
  line ← install c;
  match classify (argv vs line) with
  | CondaInstall _ reqs => reqs
  | _ => []
  end.

(** *** One behaviour of the tools

    The rules above leave open what the tools choose.  [simulate] fixes
    one choice (conda installs the first release of a requested series
    and nothing it was not asked for; activation puts the environment
    under [$HOME/miniconda/envs]; other programs leave the state as it
    is), so that runs can be computed. *)

Definition pick_version (c : Conda.constraint) : string :=
  match c with
  | Conda.AnyVersion => "1.0"
  | Conda.Series p => p +:+ ".0"
  | Conda.Exactly v => v
  end.

Definition install_spec (sp : Conda.spec) (ps : gmap string string)
  : gmap string string :=
  <[sp.1 := pick_version sp.2]> ps.

Definition simulate (c : cmd) (s : state) : option state :=
  match c with
  | Export x v => Some (State (<[x:=v]> (vars s)) (files s) (pkgs s))
  | Append t p =>
      Some (State (vars s)
              (<[p := default [] (files s !! p) ++ [t]]> (files s)) (pkgs s))
  | Activate n =>
      let prefix := value (vars s) "HOME" +:+ "/miniconda/envs/" +:+ n in
      if Shell.blank_free prefix
      then Some (State (<["CONDA_PREFIX" := prefix]> (vars s)) (files s) ∅)
      else None
  | CondaInstall specs reqs =>
      let ps' := foldr install_spec (pkgs s) (map Conda.parse_spec specs) in
      if forallb (Conda.installed ps') (map Conda.parse_spec specs)
         && forallb (Conda.respected (pkgs s) ps') (pins s)
      then Some (State (vars s) (files s) ps')
      else None
  | Program _ => Some s
  | Unsupported => None
  end.

Fixpoint simulate_run (lines : list string) (s : state) : option state :=
  match lines with
  | [] => Some s
  | line :: rest =>
      match simulate (classify (argv (vars s) line)) s with
      | Some s1 => simulate_run rest s1
      | None => None
      end
  end.

(** *** Deployment *)

(** The [condition] of an [on] block is evaluated by bash inside
    [[ ... ]].  There the right operand of [=] is a pattern; it is
    compared as text here, which is what bash does when the operand
    has none of the pattern characters [*], [?] and [[]. *)
Fixpoint has_pattern_char (s : string) : bool :=
  match s with
  | EmptyString => false
  | String c s' =>
      let n := nat_of_ascii c in
      (n =? 42) || (n =? 63) || (n =? 91) || has_pattern_char s'
  end.

Definition test (vs : gmap string string) (cond : string) : bool :=
  match Shell.test_words (value vs) cond with
  | [a; op; b] =>
      if has_pattern_char b then false
      else if String.eqb op "=" || String.eqb op "==" then String.eqb a b
      else if String.eqb op "!=" then negb (String.eqb a b)
      else false
  | _ => false
  end.

Definition is_tag (b : build) : bool :=
  match tag b with Some _ => true | None => false end.

Definition on_holds (b : build) (vs : gmap string string) (o : on_block) : bool :=
  Bool.eqb (on_tags o) (is_tag b)
  && match on_condition o with
     | Some c => test vs c
     | None => true
     end.

Record upload := Upload {
  up_provider : string;
  up_distributions : string;
  up_user : string
}.

(** A job deploys through an entry of [deploy] when [before_install],
    [install] and [script] have all succeeded and the entry's [on] block
    holds in the shell as it is by then. *)
Inductive deploys (c : config) (b : build) (j : job) (s0 : state) : upload → Prop :=
| deploys_entry machine s1 s2 d :
    vars s0 = job_vars b j machine →
    run (before_install c ++ install c ++ script c) s0 s1 →
    reach (after_success c) s1 s2 →
    d ∈ deploy c →
    on_holds b (vars s2) (on d) = true →
    deploys c b j s0 (Upload (provider d) (distributions d) (user d)).

End Job.

(** ** The documentation environment, [environment.yml] *)

Module Environment.

(** An entry of [dependencies] is a package specification, or the [pip]
    key with the packages that pip installs. *)
Inductive dependency :=
| Package (spec : string)
| Pip (packages : list string).

Record manifest := {
  name : string;
  channels : list string;
  dependencies : list dependency
}.

Definition environment_yml : manifest := {|
  name := "nbodykit-docs";
  channels := ["defaults"; "bccp"; "astropy"];
  dependencies :=
    [Package "python=3.6"; Package "numpy"; Package "scipy"; Package "astropy";
     Package "mpi4py"; Package "runtests"; Package "pmesh"; Package "kdcount";
     Package "mpsort"; Package "bigfile"; Package "pandas"; Package "dask";
     Package "cachey"; Package "sympy"; Package "numexpr"; Package "corrfunc";
     Package "mcfit"; Package "classylss"; Package "h5py"; Package "halotools";
     Package "fitsio"; Package "sphinx"; Package "IPython"; Package "pip";
     Pip ["nbsphinx"; "sphinx_bootstrap_theme"; "sphinx-issues"; "numpydoc"]]
|}.

Definition entries (d : dependency) : list string :=
  match d with
  | Package s => [s]
  | Pip l => l
  end.

(** Every package entry of the manifest, those under [pip] included. *)
Definition packages (m : manifest) : list string :=
  d ← dependencies m; entries d.

Definition conda_packages (m : manifest) : list string :=
  d ← dependencies m; match d with Package s => [s] | Pip _ => [] end.

(** *** The shape of an entry *)

Definition is_digit (c : ascii) : bool :=
  let n := nat_of_ascii c in (48 <=? n) && (n <=? 57).

Definition is_letter (c : ascii) : bool :=
  let n := nat_of_ascii c in
  ((65 <=? n) && (n <=? 90)) || ((97 <=? n) && (n <=? 122)).

(** Characters of a package name: letters, digits, [_], [-] and [.]. *)
Definition is_name_char (c : ascii) : bool :=
  let n := nat_of_ascii c in
  is_letter c || is_digit c || (n =? 95) || (n =? 45) || (n =? 46).

Definition is_version_char (c : ascii) : bool :=
  let n := nat_of_ascii c in is_digit c || is_letter c || (n =? 46).

Fixpoint all_chars (p : ascii → bool) (s : string) : bool :=
  match s with
  | EmptyString => true
  | String c s' => p c && all_chars p s'
  end.

Definition nonempty (s : string) : bool :=
  match s with EmptyString => false | String _ _ => true end.

Definition is_package_name (s : string) : bool :=
  nonempty s && all_chars is_name_char s.

Definition is_version (s : string) : bool :=
  nonempty s && all_chars is_version_char s.

(** A package name, alone or with a version pinned after [=] or [==]. *)
Definition is_package_entry (s : string) : bool :=
  let sp := Conda.parse_spec s in
  is_package_name sp.1
  && match sp.2 with
     | Conda.AnyVersion => true
     | Conda.Series v | Conda.Exactly v => is_version v
     end.

Definition is_pinned (s : string) : bool :=
  match (Conda.parse_spec s).2 with
  | Conda.AnyVersion => false
  | _ => true
  end.

(** *** [conda env create]

    The header of the file gives the command,
    [conda env create --name nbodykit-docs -f environment.yml]; without
    [--name] the environment takes the [name] of the manifest. *)

Record environment := {
  env_name : string;
  env_channels : list string;
  env_requested : list Conda.spec;
  env_pip : list string
}.

Definition env_create (cli_name : option string) (m : manifest) : environment := {|
  env_name := default (name m) cli_name;
  env_channels := channels m;
  env_requested := map Conda.parse_spec (conda_packages m);
  env_pip := d ← dependencies m; match d with Package _ => [] | Pip l => l end
|}.

(** What the environment asks of a package. *)
Definition requested (e : environment) (pkg : string) : option Conda.constraint :=
  snd <$> head (filter (λ sp, sp.1 = pkg) (env_requested e)).

End Environment.

(** ** The test-runner invocation

    Reading the argument vector that the [script] line passes: a flag is
    present when it is one of the arguments; [--mpirun=CMD] carries the
    launcher command line, whose [-n] option is the number of processes. *)

Module Runner.

Definition has_flag (flag : string) (args : list string) : bool :=
  existsb (String.eqb flag) args.

Definition option_value (opt : string) (args : list string) : option string :=
  head (omap (strip_prefix (opt +:+ "=")) args).

Fixpoint after_option (opt : string) (ws : list string) : option string :=
  match ws with
  | [] => None
  | w :: rest =>
      if String.eqb w opt then head rest else after_option opt rest
  end.

Definition digit_value (c : ascii) : option nat :=
  let n := nat_of_ascii c in
  if (48 <=? n) && (n <=? 57) then Some (n - 48) else None.

Fixpoint parse_nat_from (acc : nat) (s : string) : option nat :=
  match s with
  | EmptyString => Some acc
  | String c s' =>
      match digit_value c with
      | Some d => parse_nat_from (10 * acc + d) s'
      | None => None
      end
  end.

Definition parse_nat (s : string) : option nat :=
  match s with
  | EmptyString => None
  | _ => parse_nat_from 0 s
  end.

(** The number of MPI processes a test run is launched with. *)
Definition mpi_processes (args : list string) : option nat :=
  cmd ← option_value "--mpirun" args;
  n ← after_option "-n" (Shell.shell_words (λ _, EmptyString) cmd);
  parse_nat n.

(** The lines of a phase that start the interpreter on a script. *)
Definition is_python_run (ws : list string) : bool :=
  match ws with
  | w :: _ :: _ => String.eqb w "python"
  | _ => false
  end.

End Runner.

(** ** The notebook, [docs/source/mesh/overview.ipynb]

    Cells in order.  A raw cell is reStructuredText and is kept by its
    section titles; a code cell is kept with its statements, its comments
    and the standard output recorded when it was last run. *)

Module Notebook.

Local Set Warnings "-register-all".

Inductive expr :=
| Name (x : string)
| Str (s : string)
| Int (n : Z)
| Float (literal : string)
| Ellipsis
| ListOf (items : list expr)
| Attr (e : expr) (a : string)
| Call (f : expr) (args : list expr) (kwargs : list (string * expr))
| Subscript (e : expr) (index : list expr).

Inductive stmt :=
| Comment (text : string)
| ImportFrom (module : string) (names : list string)
| Assign (x : string) (e : expr)
| SetItem (target : expr) (index : list expr) (e : expr)
| Do (e : expr).

Inductive cell :=
| Raw (titles : list string)
| Code (execution_count : nat) (source : list stmt) (stdout : list string).

Definition print (label : string) (e : expr) : stmt :=
  Do (Call (Name "print") [Str label; e] []).

Definition cell_fields : cell :=
  Code 1
    [ ImportFrom "pmesh.pm" ["ParticleMesh"; "RealField"; "ComplexField"];
      Comment "a 8^3 mesh";
      Assign "pm" (Call (Name "ParticleMesh") [] [("Nmesh", ListOf [Int 8; Int 8; Int 8])]);
      Comment "initialize a RealField";
      Assign "rfield" (Call (Name "RealField") [Name "pm"] []);
      Comment "shape";
      print "shape = " (Attr (Name "rfield") "shape");
      Comment "set entire mesh to unity";
      SetItem (Name "rfield") [Ellipsis] (Float "1.0");
      Comment "print the mean of the underlying array";
      print "mean = " (Call (Attr (Attr (Name "rfield") "value") "mean") [] []) ]
    [ "shape =  (8, 8, 8)";
      "mean =  1.0" ].

Definition cell_transforms : cell :=
  Code 2
    [ Comment "perform the forward FFT";
      Assign "cfield" (Call (Attr (Name "rfield") "r2c") [] []);
      Comment "stores Nmesh/2+1 in z axis b/c of conjugate symmetry";
      print "shape = " (Attr (Name "cfield") "shape");
      Comment "k=0 mode is the mean value of configuration space field";
      print "mean of configuration space field from k=0 = "
            (Subscript (Name "cfield") [Int 0; Int 0; Int 0]);
      Comment "perform the inverse FFT";
      Assign "rfield2" (Call (Attr (Name "cfield") "c2r") [] []);
      Comment "print the mean of the underlying array";
      print "mean of real field = "
            (Call (Attr (Attr (Name "rfield2") "value") "mean") [] []) ]
    [ "shape =  (8, 8, 5)";
      "mean of configuration space field from k=0 =  (1+0j)";
      "mean of real field =  1.0" ].

Definition overview_ipynb : list cell :=
  [ Raw ["Dealing with Data on a Mesh";
         "What is a :class:`MeshSource`?";
         "Use Cases";
         "Painting the Mesh";
         "Fields: ``RealField`` and ``ComplexField``"];
    cell_fields;
    Raw ["The :func:`c2r` and :func:`r2c` functions"];
    cell_transforms;
    Raw ["Storing Meta-data"; "API"] ].

Definition code_cells (nb : list cell) : list (list stmt * list string) :=
  c ← nb; match c with Code _ src out => [(src, out)] | Raw _ => [] end.

(** *** Where the called code comes from

    A name is bound by an import or by an assignment; an attribute, a
    call or a subscript comes from where its subject does.  A name that
    is neither bound nor a builtin would be code of the notebook's
    own surroundings. *)

Inductive origin :=
| Builtin
| Module (name : string)
| Unbound.

Definition builtins : list string := ["print"].

Fixpoint origin_of (Γ : gmap string origin) (e : expr) : origin :=
  match e with
  | Name x =>
      match Γ !! x with
      | Some o => o
      | None => if bool_decide (x ∈ builtins) then Builtin else Unbound
      end
  | Attr e _ | Subscript e _ => origin_of Γ e
  | Call f _ _ => origin_of Γ f
  | Str _ | Int _ | Float _ | Ellipsis | ListOf _ => Builtin
  end.

(** The name a call is made by: the function's, or the method's. *)
Definition callee (f : expr) : string :=
  match f with
  | Name x => x
  | Attr _ a => a
  | _ => EmptyString
  end.

(** The calls of an expression, each with the origin of what is called. *)
Fixpoint calls (Γ : gmap string origin) (e : expr) : list (string * origin) :=
  match e with
  | Call f args kwargs =>
      calls Γ f
      ++ [(callee f, origin_of Γ f)]
      ++ (fix go (es : list expr) :=
            match es with [] => [] | a :: es' => calls Γ a ++ go es' end) args
      ++ (fix go (es : list (string * expr)) :=
            match es with [] => [] | a :: es' => calls Γ a.2 ++ go es' end) kwargs
  | Attr e _ => calls Γ e
  | Subscript e index =>
      calls Γ e
      ++ (fix go (es : list expr) :=
            match es with [] => [] | a :: es' => calls Γ a ++ go es' end) index
  | ListOf items =>
      (fix go (es : list expr) :=
         match es with [] => [] | a :: es' => calls Γ a ++ go es' end) items
  | Name _ | Str _ | Int _ | Float _ | Ellipsis => []
  end.

Definition bind (Γ : gmap string origin) (s : stmt) : gmap string origin :=
  match s with
  | ImportFrom m names => foldr (λ x Γ', <[x := Module m]> Γ') Γ names
  | Assign x e => <[x := origin_of Γ e]> Γ
  | Comment _ | SetItem _ _ _ | Do _ => Γ
  end.

Definition stmt_calls (Γ : gmap string origin) (s : stmt) : list (string * origin) :=
  match s with
  | Assign _ e | Do e => calls Γ e
  | SetItem t index e =>
      calls Γ t ++ (i ← index; calls Γ i) ++ calls Γ e
  | Comment _ | ImportFrom _ _ => []
  end.

Fixpoint source_calls (Γ : gmap string origin) (src : list stmt)
  : list (string * origin) * gmap string origin :=
  match src with
  | [] => ([], Γ)
  | s :: rest =>
      let r := source_calls (bind Γ s) rest in
      (stmt_calls Γ s ++ r.1, r.2)
  end.

(** The cells of a notebook share one namespace. *)
Fixpoint notebook_calls (Γ : gmap string origin) (cells : list (list stmt * list string))
  : list (string * origin) :=
  match cells with
  | [] => []
  | c :: rest =>
      let r := source_calls Γ c.1 in
      r.1 ++ notebook_calls r.2 rest
  end.

(** *** The mesh and its fields

    The classes [ParticleMesh], [RealField] and [ComplexField] and the
    transforms [r2c] and [c2r] belong to the external package pmesh,
    which is not part of the sources.  The notebook shows, of these,
    the shapes of the fields; the numbers held in a field are floating
    point and are not modelled. *)

(** Modelled from the spec: the shape of a [RealField] (pmesh, not in
    the sources).  A configuration-space field is a real-valued array
    over a 3D mesh of side length [Nmesh]: [Nmesh] cells along each
    axis. *)
Definition real_shape (Nmesh : list Z) : list Z := Nmesh.

(** Modelled from the spec: the shape of the [ComplexField] that [r2c]
    gives (pmesh, not in the sources).  A Fourier-space field is a
    complex-valued array truncated along one axis by conjugate
    symmetry; the notebook names the axis and the size, [Nmesh/2+1]
    entries along z. *)
Definition complex_shape (Nmesh : list Z) : list Z :=
  match rev Nmesh with
  | [] => []
  | nz :: rest => rev rest ++ [nz / 2 + 1]%Z
  end.

(** The number of cells of a mesh. *)
Definition cells (shape : list Z) : Z := foldr Z.mul 1%Z shape.

Inductive value :=
| VClass (module name : string)
| VBuiltin (name : string)
| VStr (s : string)
| VInt (n : Z)
| VFloat
| VEllipsis
| VNone
| VList (items : list Z)
| VTuple (items : list Z)
| VMesh (Nmesh : list Z)
| VReal (Nmesh : list Z)
| VComplex (Nmesh : list Z)
| VArray (shape : list Z)
| VMethod (self : value) (name : string).

(** Modelled from the spec: the attributes of the fields that the
    notebook reads (pmesh, not in the sources): [shape], the array
    [value] and the transforms. *)
Definition attribute (v : value) (a : string) : option value :=
  match v with
  | VReal N =>
      if String.eqb a "shape" then Some (VTuple (real_shape N))
      else if String.eqb a "value" then Some (VArray (real_shape N))
      else if String.eqb a "r2c" then Some (VMethod v a)
      else None
  | VComplex N =>
      if String.eqb a "shape" then Some (VTuple (complex_shape N))
      else if String.eqb a "value" then Some (VArray (complex_shape N))
      else if String.eqb a "c2r" then Some (VMethod v a)
      else None
  | VArray sh =>
      if String.eqb a "shape" then Some (VTuple sh)
      else if String.eqb a "mean" then Some (VMethod v a)
      else None
  | _ => None
  end.

(** Modelled from the spec: the constructors and transforms the
    notebook calls (pmesh, not in the sources).  [r2c] takes a
    configuration-space field to a Fourier-space field on the same
    mesh, [c2r] takes it back. *)
Definition apply (f : value) (args : list value) (kwargs : list (string * value))
  : option value :=
  match f, args, kwargs with
  | VClass m c, [], [(k, VList N)] =>
      if String.eqb m "pmesh.pm" && String.eqb c "ParticleMesh" && String.eqb k "Nmesh"
      then Some (VMesh N) else None
  | VClass m c, [VMesh N], [] =>
      if String.eqb m "pmesh.pm" && String.eqb c "RealField" then Some (VReal N)
      else if String.eqb m "pmesh.pm" && String.eqb c "ComplexField" then Some (VComplex N)
      else None
  | VMethod (VReal N) a, [], [] =>
      if String.eqb a "r2c" then Some (VComplex N) else None
  | VMethod (VComplex N) a, [], [] =>
      if String.eqb a "c2r" then Some (VReal N) else None
  | VMethod (VArray _) a, [], [] =>
      if String.eqb a "mean" then Some VFloat else None
  | _, _, _ => None
  end.

(** An index is within a shape. *)
Definition in_range (shape : list Z) (index : list value) : bool :=
  (length shape =? length index)
  && forallb (λ p, match p.2 with
                   | VInt i => (0 <=? i)%Z && (i <? p.1)%Z
                   | _ => false
                   end) (zip shape index).

(** Modelled from the spec: an entry of a field (pmesh, not in the
    sources) is a number. *)
Definition subscript (v : value) (index : list value) : option value :=
  match v with
  | VReal N => if in_range (real_shape N) index then Some VFloat else None
  | VComplex N => if in_range (complex_shape N) index then Some VFloat else None
  | _ => None
  end.

Definition as_int (v : value) : option Z :=
  match v with VInt n => Some n | _ => None end.

Fixpoint eval (ρ : gmap string value) (e : expr) : option value :=
  match e with
  | Name x =>
      match ρ !! x with
      | Some v => Some v
      | None => if bool_decide (x ∈ builtins) then Some (VBuiltin x) else None
      end
  | Str s => Some (VStr s)
  | Int n => Some (VInt n)
  | Float _ => Some VFloat
  | Ellipsis => Some VEllipsis
  | ListOf items =>
      vs ← (fix go (es : list expr) : option (list value) :=
              match es with
              | [] => Some []
              | a :: es' => v ← eval ρ a; vs ← go es'; Some (v :: vs)
              end) items;
      VList <$> mapM as_int vs
  | Attr e a => v ← eval ρ e; attribute v a
  | Call f args kwargs =>
      fv ← eval ρ f;
      avs ← (fix go (es : list expr) : option (list value) :=
               match es with
               | [] => Some []
               | a :: es' => v ← eval ρ a; vs ← go es'; Some (v :: vs)
               end) args;
      kvs ← (fix go (es : list (string * expr)) : option (list (string * value)) :=
               match es with
               | [] => Some []
               | a :: es' => v ← eval ρ a.2; vs ← go es'; Some ((a.1, v) :: vs)
               end) kwargs;
      apply fv avs kvs
  | Subscript e index =>
      v ← eval ρ e;
      ivs ← (fix go (es : list expr) : option (list value) :=
               match es with
               | [] => Some []
               | a :: es' => v ← eval ρ a; vs ← go es'; Some (v :: vs)
               end) index;
      subscript v ivs
  end.

(** What [print] writes for a value.  A tuple of one item keeps its
    comma; the digits of a floating-point number are not modelled, so a
    line that shows one is not determined ([None]). *)
Definition str (v : value) : option string :=
  match v with
  | VStr s => Some s
  | VInt n => Some (pretty n)
  | VTuple [n] => Some ("(" +:+ pretty n +:+ ",)")
  | VTuple ns => Some ("(" +:+ join ", " (pretty <$> ns) +:+ ")")
  | VList ns => Some ("[" +:+ join ", " (pretty <$> ns) +:+ "]")
  | _ => None
  end.

Definition print_line (args : list value) : option string :=
  join " " <$> mapM str args.

Definition exec (ρ : gmap string value) (s : stmt)
  : option (gmap string value * list (option string)) :=
  match s with
  | Comment _ => Some (ρ, [])
  | ImportFrom m names => Some (foldr (λ x ρ', <[x := VClass m x]> ρ') ρ names, [])
  | Assign x e => v ← eval ρ e; Some (<[x := v]> ρ, [])
  | SetItem t index e =>
      _ ← eval ρ t; _ ← mapM (eval ρ) index; _ ← eval ρ e; Some (ρ, [])
  | Do (Call (Name f) args []) =>
      if String.eqb f "print" && bool_decide (ρ !! f = None)
      then vs ← mapM (eval ρ) args; Some (ρ, [print_line vs])
      else _ ← eval ρ (Call (Name f) args []); Some (ρ, [])
  | Do e => _ ← eval ρ e; Some (ρ, [])
  end.

Fixpoint exec_source (ρ : gmap string value) (src : list stmt)
  : option (gmap string value * list (option string)) :=
  match src with
  | [] => Some (ρ, [])
  | s :: rest =>
      r ← exec ρ s; r' ← exec_source r.1 rest; Some (r'.1, r.2 ++ r'.2)
  end.

(** Runs the code cells in order, in one namespace; gives what each
    writes. *)
Fixpoint exec_cells (ρ : gmap string value) (cells : list (list stmt * list string))
  : option (list (list (option string))) :=
  match cells with
  | [] => Some []
  | c :: rest =>
      r ← exec_source ρ c.1; outs ← exec_cells r.1 rest; Some (r.2 :: outs)
  end.

(** The namespace after the import line of the first cell, and the
    expressions that build a field on a mesh of side [N]. *)
Definition pmesh_imports : gmap string value :=
  foldr (λ x ρ', <[x := VClass "pmesh.pm" x]> ρ') ∅
    ["ParticleMesh"; "RealField"; "ComplexField"].

Definition mesh_of (N : Z) : expr :=
  Call (Name "ParticleMesh") [] [("Nmesh", ListOf [Int N; Int N; Int N])].

Definition real_field (N : Z) : expr := Call (Name "RealField") [mesh_of N] [].

Definition r2c (field : expr) : expr := Call (Attr field "r2c") [] [].

Definition recorded (nb : list cell) : list (list string) :=
  snd <$> code_cells nb.

(** A recorded output agrees with a computed one when it has the same
    number of lines and shows every line that is determined. *)
Definition agrees (computed : list (option string)) (recorded : list string) : bool :=
  (length computed =? length recorded)
  && forallb (λ p, match p.1 with
                   | Some l => String.eqb l p.2
                   | None => true
                   end) (zip computed recorded).

End Notebook.

(** ** The files of the repository

    The files given, and the files of the checkout that the lines of the
    job read: a script handed to [python], a directory handed to
    [pip install], a requirements file handed to [conda install]. *)

Module Repository.

Inductive kind :=
| Configuration
| Manifest
| Documentation
| Script
| Package.

Definition is_configuration (k : kind) : bool :=
  match k with
  | Configuration | Manifest | Documentation => true
  | Script | Package => false
  end.

Definition supplied : list (string * kind) :=
  [ (".travis.yml", Configuration);
    ("environment.yml", Manifest);
    ("docs/source/mesh/overview.ipynb", Documentation) ].

(** [pip install PATH[extras]] installs the project in the directory
    [PATH]; a bare name is fetched from the package index. *)
Definition local_project (arg : string) : option (string * kind) :=
  if String.prefix "." arg || String.prefix "/" arg then
    match split_at "[" arg with
    | Some (path, _) => Some (path, Package)
    | None => Some (arg, Package)
    end
  else None.

Definition reads (ws : list string) : list (string * kind) :=
  match ws with
  | [] => []
  | w :: args =>
      if String.eqb w "python" then
        match args with
        | f :: _ => [(f, Script)]
        | [] => []
        end
      else if String.eqb w "pip" then
        match args with
        | a :: rest => if String.eqb a "install" then omap local_project rest else []
        | [] => []
        end
      else if String.eqb w "conda" then
        match Job.classify ws with
        | Job.CondaInstall _ reqs => (λ f, (f, Manifest)) <$> reqs
        | _ => []
        end
      else []
  end.

Definition referenced (vs : gmap string string) (c : Travis.config)
  : list (string * kind) :=
  line ← Job.job_lines c; reads (Job.argv vs line).

Definition repository (vs : gmap string string) : list (string * kind) :=
  supplied ++ referenced vs Travis.travis_yml.

(** The repository holds configuration, manifests and documentation
    only. *)
Definition only_configuration (files : list (string * kind)) : Prop :=
  Forall (λ f, is_configuration f.2 = true) files.

End Repository.

(** ** Setting up conda

    The lines of [before_install] and [install] that put Miniconda in
    place, and what can be read off their argument vectors. *)

Module Setup.
Import Travis Job.

Definition installer_line : string := "./miniconda.sh -b -p $HOME/miniconda".

Definition path_line : string := "export PATH=$HOME/miniconda/bin:$PATH".

Definition create_line : string :=
  "conda create --yes -n test python=$TRAVIS_PYTHON_VERSION".

Definition activate_line : string := "source activate test".

(** The directory the Miniconda installer is told to install into:
    the word after [-p]. *)
Definition installer_prefix (ws : list string) : option string :=
  Runner.after_option "-p" ws.

(** The name [conda create] gives the environment: the word after [-n]. *)
Definition created_env (ws : list string) : option string :=
  Runner.after_option "-n" ws.

(** A value that bash leaves as one word, unchanged, where it stands
    unquoted: it has none of the characters at which fields are split
    (space, tab, newline) and none that start pathname expansion ([*],
    [?], [[], and the backslash). *)
Definition safe_char (c : ascii) : bool :=
  let n := nat_of_ascii c in
  negb ((n =? 32) || (n =? 9) || (n =? 10)
        || (n =? 42) || (n =? 63) || (n =? 91) || (n =? 92)).

Definition word_safe (s : string) : bool :=
  Environment.all_chars safe_char s.

(** [conda config --add channels C] puts [C] in front of the channels
    that conda searches. *)
Definition added_channel (ws : list string) : option string :=
  match ws with
  | c0 :: c1 :: rest =>
      if String.eqb c0 "conda" && String.eqb c1 "config" then
        match rest with
        | [c2; c3; ch] =>
            if String.eqb c2 "--add" && String.eqb c3 "channels"
            then Some ch else None
        | _ => None
        end
      else None
  | _ => None
  end.

Definition channels_after (vs : gmap string string) (lines : list string)
    (channels : list string) : list string :=
  foldl (λ chs line, match added_channel (argv vs line) with
                     | Some c => c :: chs
                     | None => chs
                     end) channels lines.


End Setup.

(** ** Sample builds

    A build of a pushed tag and its three jobs, on a machine whose home
    directory is that of the Travis image; a job starts with no text file
    written and no environment active. *)

Module Sample.
Import Travis Job.

Definition machine : gmap string string := {[ "HOME" := "/home/travis" ]}.

Definition tagged : build := {| tag := Some "0.3.7" |}.

Definition python27 : job := {| job_python := "2.7"; job_env := "NUMPY_VERSION=1.15" |}.
Definition python37 : job := {| job_python := "3.7"; job_env := "NUMPY_VERSION=1.15" |}.

Definition start (j : job) : state := State (job_vars tagged j machine) ∅ ∅.

(** The state in which the simulated tools leave a job after the given
    lines (the start state if a line fails). *)
Definition after (lines : list string) (j : job) : state :=
  default (start j) (simulate_run lines (start j)).

Definition sdist_upload : upload := Upload "pypi" "sdist" "nickhand".

End Sample.

(** ** Proof automation *)

(** Replaces [Shell.lex l], for a line [l] given in full, by its words. *)
Ltac lex_line :=
  match goal with
  | |- context [Shell.lex ?l] =>
      let t := eval vm_compute in (Shell.lex l) in
      change (Shell.lex l) with t
  end.

Ltac eval_prefix :=
  match goal with
  | |- context [String.prefix ?a ?b] =>
      let t := eval vm_compute in (String.prefix a b) in
      change (String.prefix a b) with t; cbv iota
  end.

Create Rewrite HintDb words.

(** Brings [Job.argv vs line], for a line given in full, to the expansion
    of its words, the literal ones already expanded. *)
Ltac open_argv :=
  unfold Job.argv; eval_prefix;
  unfold Shell.test_words, Shell.shell_words; lex_line;
  autorewrite with words; cbn [app].

(** One step of a run, by a program that leaves the state as it is. *)
Ltac run_program :=
  eapply Job.run_cons;
  [ open_argv;
    match goal with
    | |- Job.exec (Job.classify ?ws) ?s _ =>
        change (Job.classify ws) with (Job.Program ws);
        apply (Job.exec_program ws s (Job.files s) (Job.pkgs s))
    end
  | cbn [Job.vars Job.files Job.pkgs] ].

(** ** Further sample inputs *)

Module Cases.
Import Travis Job.

Definition python36 : job := {| job_python := "3.6"; job_env := "NUMPY_VERSION=1.15" |}.

(** A machine whose home directory has a blank in its name. *)
Definition spaced : gmap string string := {[ "HOME" := "/home/my user" ]}.


End Cases.

(** * Properties *)

(** ** Text *)

Lemma append_cons c s t : String c s +:+ t = String c (s +:+ t).
Proof. reflexivity. Qed.

Lemma append_empty_r s : s +:+ EmptyString = s.
Proof. induction s as [|c s IH]; [done|]. by rewrite append_cons, IH. Qed.

Lemma append_assoc s t u : (s +:+ t) +:+ u = s +:+ (t +:+ u).
Proof. induction s as [|c s IH]; [done|]. by rewrite !append_cons, IH. Qed.

(** ** Lexing and expansion of words *)

Example lex_pin_line :
  Shell.lex Job.pin_line
  = [ [Shell.Lit "echo"];
      [Shell.Lit "numpy "; Shell.Param "NUMPY_VERSION" true; Shell.Lit ".*"];
      [Shell.Lit ">>"];
      [Shell.Param "CONDA_PREFIX" false; Shell.Lit "/conda-meta/pinned"] ].
Proof. reflexivity. Qed.

Example lex_single_quotes :
  Shell.lex "python run-tests.py -v --mpirun='mpirun -n 4' --with-coverage"
  = [ [Shell.Lit "python"]; [Shell.Lit "run-tests.py"]; [Shell.Lit "-v"];
      [Shell.Lit "--mpirun=mpirun -n 4"]; [Shell.Lit "--with-coverage"] ].
Proof. reflexivity. Qed.

(** An unquoted reference is split at the blanks of its value and vanishes
    when the value is empty; a quoted one is one field whatever it holds. *)
Example expand_splits :
  let ρ x := if String.eqb x "S" then "a b" else EmptyString in
  Shell.shell_words ρ ("x$S$S $E " +:+ dq "$E" +:+ " " +:+ dq "$S" +:+ " '$S'")
  = ["xa"; "ba"; "b"; EmptyString; "a b"; "$S"].
Proof. reflexivity. Qed.

Example expand_unsplit :
  let ρ x := if String.eqb x "S" then "a b" else EmptyString in
  Shell.test_words ρ "$E = $S" = [EmptyString; "="; "a b"].
Proof. reflexivity. Qed.

Lemma expand_cons split ρ w ws :
  Shell.expand split ρ (w :: ws)
  = Shell.expand_word split ρ w ++ Shell.expand split ρ ws.
Proof. reflexivity. Qed.

Lemma expand_nil split ρ : Shell.expand split ρ [] = [].
Proof. reflexivity. Qed.

Lemma expand_word_lit split ρ l :
  Shell.expand_word split ρ [Shell.Lit l] = [l].
Proof. reflexivity. Qed.

#[local] Hint Rewrite expand_cons expand_nil expand_word_lit : words.

Lemma word_text_cons ρ p w :
  Shell.word_text ρ (p :: w) = Shell.part_text ρ p +:+ Shell.word_text ρ w.
Proof. reflexivity. Qed.

(** The value of a reference that holds no blank joins the field being
    built and starts no other. *)
Lemma split_value_blank_free v cur done :
  Shell.blank_free v = true →
  ∃ cur', Shell.split_value v cur done = (cur', done)
          ∧ default EmptyString cur' = default EmptyString cur +:+ v
          ∧ (is_Some cur → is_Some cur').
Proof.
  revert cur. induction v as [|c v IH]; intros cur Hv; simpl in *.
  - exists cur. by rewrite append_empty_r.
  - apply andb_prop in Hv as [Hc Hv]. apply negb_true_iff in Hc. rewrite Hc.
    destruct (IH (Some (Shell.snoc (default EmptyString cur) c)) Hv)
      as (cur' & -> & Ht & Hs).
    exists cur'. split; [done|]. split.
    + rewrite Ht. cbn. unfold Shell.snoc. by rewrite append_assoc.
    + intros _. apply Hs. by eexists.
Qed.

Lemma fold_expand_single ρ w cur done :
  forallb (Shell.splits_nothing ρ) w = true →
  ∃ cur', fold_left (Shell.expand_part true ρ) w (cur, done) = (cur', done)
          ∧ default EmptyString cur' = default EmptyString cur +:+ Shell.word_text ρ w
          ∧ (is_Some cur ∨ existsb Shell.anchors w = true → is_Some cur').
Proof.
  revert cur. induction w as [|p w IH]; intros cur Hw.
  - exists cur. cbn. rewrite append_empty_r. intuition discriminate.
  - cbn [forallb] in Hw. apply andb_prop in Hw as [Hp Hw].
    rewrite word_text_cons. cbn [fold_left existsb].
    destruct p as [l|x [|]]; cbn in Hp |- *.
    + destruct (IH (Some (default EmptyString cur +:+ l)) Hw) as (cur' & -> & Ht & Hs).
      exists cur'. split; [done|]. split.
      * rewrite Ht. cbn. by rewrite append_assoc.
      * intros _. apply Hs. left. by eexists.
    + destruct (IH (Some (default EmptyString cur +:+ ρ x)) Hw) as (cur' & -> & Ht & Hs).
      exists cur'. split; [done|]. split.
      * rewrite Ht. cbn. by rewrite append_assoc.
      * intros _. apply Hs. left. by eexists.
    + destruct (split_value_blank_free (ρ x) cur done Hp) as (c1 & -> & Ht1 & Hs1).
      destruct (IH c1 Hw) as (cur' & -> & Ht & Hs).
      exists cur'. split; [done|]. split.
      * by rewrite Ht, Ht1, append_assoc.
      * intros [H|H]; apply Hs; auto.
Qed.

(** A word none of whose unquoted references holds a blank, and which has
    literal or quoted text, expands to exactly one field. *)
Lemma expand_word_single ρ w :
  forallb (Shell.splits_nothing ρ) w = true →
  existsb Shell.anchors w = true →
  Shell.expand_word true ρ w = [Shell.word_text ρ w].
Proof.
  intros Hw Ha. unfold Shell.expand_word.
  destruct (fold_expand_single ρ w None [] Hw) as (cur' & -> & Ht & Hs).
  destruct Hs as [t ->]; [by right|]. cbn in *. by rewrite Ht.
Qed.

Lemma fold_expand_unsplit ρ w cur done :
  fold_left (Shell.expand_part false ρ) w (Some cur, done)
  = (Some (cur +:+ Shell.word_text ρ w), done).
Proof.
  revert cur. induction w as [|p w IH]; intros cur.
  - cbn. by rewrite append_empty_r.
  - rewrite word_text_cons. cbn [fold_left].
    destruct p as [l|x q]; cbn; rewrite ?orb_true_r, IH, append_assoc; done.
Qed.

(** Without field splitting every word is one field. *)
Lemma expand_word_unsplit ρ w :
  w ≠ [] → Shell.expand_word false ρ w = [Shell.word_text ρ w].
Proof.
  intros Hw. destruct w as [|p w]; [done|]. unfold Shell.expand_word.
  assert (Shell.expand_part false ρ (None, []) p = (Some (Shell.part_text ρ p), [])) as Hc.
  { destruct p as [l|x q]; cbn; rewrite ?orb_true_r; done. }
  cbn [fold_left]. rewrite Hc, fold_expand_unsplit. done.
Qed.

(** ** Commands and the variables of the shell *)

Lemma exec_untouched c s s' x :
  Job.exec c s s' → Job.touches c x = false → Job.vars s' !! x = Job.vars s !! x.
Proof.
  destruct 1; simpl; intros Hx; try done.
  - apply lookup_insert_ne. intros ->. by rewrite String.eqb_refl in Hx.
  - auto.
Qed.

Lemma run_untouched x lines s s' :
  Job.run lines s s' → Forall (Job.keeps x) lines →
  Job.vars s' !! x = Job.vars s !! x.
Proof.
  induction 1 as [|line lines s s1 s2 Hexec _ IH]; [done|].
  intros Hall. apply Forall_cons in Hall as [Hline Hall].
  rewrite IH by done. eapply exec_untouched; [done|]. apply Hline.
Qed.

Lemma value_untouched x lines s s' :
  Job.run lines s s' → Forall (Job.keeps x) lines →
  Job.value (Job.vars s') x = Job.value (Job.vars s) x.
Proof. intros Hr Hk. unfold Job.value. by rewrite (run_untouched x lines s s'). Qed.

(** Only [export] and [source] act on the variables. *)
Lemma classify_keeps w args x :
  w ≠ "export" → w ≠ "source" → Job.touches (Job.classify (w :: args)) x = false.
Proof.
  intros He Hs. unfold Job.classify.
  destruct (String.eqb_spec w "export") as [|_]; [done|].
  destruct (String.eqb_spec w "source") as [|_]; [done|].
  destruct (String.eqb w "echo").
  { destruct (Job.split_redirect args) as [[t p]|]; [done|].
    by destruct (existsb _ args). }
  destruct (String.eqb w "conda"); [|done].
  destruct args as [|a rest]; [done|]. by destruct (String.eqb a "install").
Qed.

(** The lines of [.travis.yml] assign [PATH], [PYTHONHTTPSVERIFY] and,
    through the activation, conda's variables; every other variable is
    kept by every line. *)
Lemma travis_keeps x :
  Job.script_sets x = false →
  Forall (Job.keeps x) (Job.job_lines Travis.travis_yml).
Proof.
  intros Hx. apply orb_false_elim in Hx as [Hc Hv].
  assert (String.eqb x "PATH" = false) as Hp.
  { unfold Job.conda_var in Hc. by repeat (apply orb_false_elim in Hc as [Hc ?]). }
  repeat (apply List.Forall_cons); try apply List.Forall_nil; intros vs; open_argv.
  all: try (by apply classify_keeps).
  - rewrite expand_word_unsplit by done. cbn [app Shell.word_text foldr Shell.part_text].
    rewrite !append_cons. exact Hp.
  - exact Hv.
  - exact Hc.
Qed.


(** ** The build matrix *)

Lemma matrix_travis :
  Travis.matrix Travis.travis_yml =
    [ {| Travis.job_python := "2.7"; Travis.job_env := "NUMPY_VERSION=1.15" |};
      {| Travis.job_python := "3.6"; Travis.job_env := "NUMPY_VERSION=1.15" |};
      {| Travis.job_python := "3.7"; Travis.job_env := "NUMPY_VERSION=1.15" |} ].
Proof. reflexivity. Qed.

Lemma matrix_job_env j :
  j ∈ Travis.matrix Travis.travis_yml → Travis.job_env j = "NUMPY_VERSION=1.15".
Proof.
  rewrite matrix_travis, !elem_of_cons, elem_of_nil.
  intros [->|[->|[->|[]]]]; reflexivity.
Qed.

Lemma matrix_job_python j :
  j ∈ Travis.matrix Travis.travis_yml → Travis.job_python j ∈ ["2.7"; "3.6"; "3.7"].
Proof.
  rewrite matrix_travis, !elem_of_cons, elem_of_nil.
  intros [->|[->|[->|[]]]]; cbn; set_solver.
Qed.

Lemma job_vars_matrix b j machine :
  j ∈ Travis.matrix Travis.travis_yml →
  Travis.job_vars b j machine
  = <["NUMPY_VERSION" := "1.15"]>
      (<["TRAVIS_PYTHON_VERSION" := Travis.job_python j]>
        (<["TRAVIS_TAG" := default EmptyString (Travis.tag b)]> machine)).
Proof. intros Hj. unfold Travis.job_vars. by rewrite (matrix_job_env j Hj). Qed.

Lemma job_python_version b j machine :
  j ∈ Travis.matrix Travis.travis_yml →
  Job.value (Travis.job_vars b j machine) "TRAVIS_PYTHON_VERSION" = Travis.job_python j.
Proof.
  intros Hj. unfold Job.value. rewrite job_vars_matrix by done.
  rewrite lookup_insert_ne by done. by rewrite lookup_insert_eq.
Qed.

Lemma job_numpy_version b j machine :
  j ∈ Travis.matrix Travis.travis_yml →
  Job.value (Travis.job_vars b j machine) "NUMPY_VERSION" = "1.15".
Proof.
  intros Hj. unfold Job.value. rewrite job_vars_matrix by done.
  by rewrite lookup_insert_eq.
Qed.

(** ** Runs *)

Lemma run_app l1 l2 s s' :
  Job.run (l1 ++ l2) s s' ↔ ∃ m, Job.run l1 s m ∧ Job.run l2 m s'.
Proof.
  revert s. induction l1 as [|line l1 IH]; intros s; simpl.
  - split.
    + intros H. exists s. split; [constructor|done].
    + intros (m & H1 & H2). by inversion H1; subst.
  - split.
    + inversion 1 as [|? ? ? s1 ? He Hr]; subst.
      apply IH in Hr as (m & H1 & H2). exists m. split; [|done]. by econstructor.
    + intros (m & H1 & H2). inversion H1 as [|? ? ? s1 ? He Hr]; subst.
      econstructor; [done|]. apply IH. eauto.
Qed.

Lemma run_cons_inv line lines s s' :
  Job.run (line :: lines) s s' →
  ∃ s1, Job.exec (Job.classify (Job.argv (Job.vars s) line)) s s1
        ∧ Job.run lines s1 s'.
Proof. inversion 1; subst; eauto. Qed.

Lemma run_nil_inv s s' : Job.run [] s s' → s' = s.
Proof. by inversion 1. Qed.

(** What the simulated tools do is allowed by the rules. *)
Lemma simulate_sound c s s' : Job.simulate c s = Some s' → Job.exec c s s'.
Proof.
  destruct c as [x v|t p|n|specs reqs|args|]; cbn [Job.simulate]; intros H.
  - injection H as <-. constructor.
  - injection H as <-. constructor.
  - destruct (Shell.blank_free _) eqn:Hb; [|done]. injection H as <-.
    constructor.
    + intros x Hx. apply lookup_insert_ne. intros <-. done.
    + unfold Job.value. by rewrite lookup_insert_eq.
  - destruct (forallb _ _ && forallb _ _) eqn:Hc; [|done]. injection H as <-.
    apply andb_prop in Hc as [Hi Hr]. by constructor.
  - injection H as <-. destruct s. constructor.
  - done.
Qed.

Lemma simulate_run_sound lines s s' :
  Job.simulate_run lines s = Some s' → Job.run lines s s'.
Proof.
  revert s. induction lines as [|line lines IH]; intros s; cbn [Job.simulate_run].
  - intros [= <-]. constructor.
  - destruct (Job.simulate _ s) as [s1|] eqn:H1; [|done]. intros H.
    econstructor; [by apply simulate_sound|by apply IH].
Qed.

(** A variable the job's lines do not assign has, wherever the job has got
    to on the way to [deploy], the value it started with. *)
Lemma deploy_time_value c x s0 s1 s2 :
  Forall (Job.keeps x) (Job.job_lines c) →
  Job.run (Travis.before_install c ++ Travis.install c ++ Travis.script c) s0 s1 →
  Job.reach (Travis.after_success c) s1 s2 →
  Job.value (Job.vars s2) x = Job.value (Job.vars s0) x.
Proof.
  intros Hk Hr [k Ha]. unfold Job.job_lines in Hk.
  rewrite !Forall_app in Hk. destruct Hk as (Hb & Hi & Hs & Haf).
  rewrite (value_untouched x _ _ _ Ha) by (by apply Forall_take).
  apply (value_untouched x _ _ _ Hr). rewrite !Forall_app. auto.
Qed.

(** ** Deployment *)

Lemma test_python27 vs :
  Job.test vs ("$TRAVIS_PYTHON_VERSION = " +:+ dq "2.7")
  = String.eqb (Job.value vs "TRAVIS_PYTHON_VERSION") "2.7".
Proof.
  unfold Job.test, Shell.test_words. lex_line. autorewrite with words.
  rewrite expand_word_unsplit by done.
  cbn [app Shell.word_text foldr Shell.part_text]. rewrite append_empty_r.
  reflexivity.
Qed.

(** The two conditions are all that the [on] block asks: the python 2.7
    job of a build for a tag, once its lines have succeeded, deploys the
    source distribution to PyPI. *)
Lemma deploy_when_tag_and_python27 b j machine s0 s1 :
  j ∈ Travis.matrix Travis.travis_yml →
  Job.vars s0 = Travis.job_vars b j machine →
  Job.run (Travis.before_install Travis.travis_yml
           ++ Travis.install Travis.travis_yml
           ++ Travis.script Travis.travis_yml) s0 s1 →
  Job.is_tag b = true → Travis.job_python j = "2.7" →
  Job.deploys Travis.travis_yml b j s0 (Job.Upload "pypi" "sdist" "nickhand").
Proof.
  intros Hj H0 Hrun Htag Hpy.
  refine (Job.deploys_entry _ _ _ _ machine s1 s1
            {| Travis.provider := "pypi"; Travis.distributions := "sdist";
               Travis.user := "nickhand"; Travis.password_secure := true;
               Travis.on := {| Travis.on_tags := true;
                               Travis.on_condition :=
                                 Some ("$TRAVIS_PYTHON_VERSION = " +:+ dq "2.7") |} |}
            H0 Hrun _ _ _).
  - exists 0. constructor.
  - apply list_elem_of_here.
  - unfold Job.on_holds.
    cbn [Travis.on Travis.on_tags Travis.on_condition].
    rewrite Htag, test_python27.
    rewrite (deploy_time_value Travis.travis_yml _ s0 s1 s1);
      [|by apply travis_keeps|done|by exists 0; constructor].
    rewrite H0, job_python_version, Hpy by done. reflexivity.
Qed.

(** C4. A job of the matrix deploys only in a build for a tag and only when
    its [TRAVIS_PYTHON_VERSION] is [2.7]; what it then uploads is the
    source distribution ([sdist]) to PyPI.  Read the other way round: in a
    build that is not for a tag, and in a job of another Python version,
    nothing is deployed. *)
Theorem deploy_only_tag_and_python27 b j s0 u :
  j ∈ Travis.matrix Travis.travis_yml →
  Job.deploys Travis.travis_yml b j s0 u →
  Job.is_tag b = true ∧ Travis.job_python j = "2.7"
  ∧ Job.up_provider u = "pypi" ∧ Job.up_distributions u = "sdist".
Proof.
  intros Hj Hd. destruct Hd as [machine s1 s2 d H0 Hrun Hreach Hd Hon].
  cbn [Travis.deploy Travis.travis_yml] in Hd.
  apply list_elem_of_singleton in Hd as ->.
  unfold Job.on_holds in Hon.
  cbn [Travis.on Travis.on_tags Travis.on_condition] in Hon.
  apply andb_prop in Hon as [Htag Hcond].
  rewrite test_python27 in Hcond. apply String.eqb_eq in Hcond.
  rewrite (deploy_time_value Travis.travis_yml _ s0 s1 s2) in Hcond;
    [|by apply travis_keeps|done|done].
  rewrite H0, job_python_version in Hcond by done.
  repeat split; [|done].
  by destruct (Job.is_tag b).
Qed.

(** The python 2.7 job of a build for a tag does deploy, once the lines of
    the job have succeeded. *)
Lemma deploy_only_tag_and_python27_witness :
  Job.is_tag Sample.tagged = true ∧ Travis.job_python Sample.python27 = "2.7"
  ∧ Job.up_provider Sample.sdist_upload = "pypi"
  ∧ Job.up_distributions Sample.sdist_upload = "sdist".
Proof.
  apply (deploy_only_tag_and_python27
           Sample.tagged Sample.python27 (Sample.start Sample.python27) Sample.sdist_upload).
  - rewrite matrix_travis. apply list_elem_of_here.
  - pose (lines := Travis.before_install Travis.travis_yml
                   ++ Travis.install Travis.travis_yml
                   ++ Travis.script Travis.travis_yml).
    apply (Job.deploys_entry _ _ _ _ Sample.machine
             (Sample.after lines Sample.python27)
             (Sample.after lines Sample.python27)
             {| Travis.provider := "pypi"; Travis.distributions := "sdist";
                Travis.user := "nickhand"; Travis.password_secure := true;
                Travis.on := {| Travis.on_tags := true;
                                Travis.on_condition :=
                                  Some ("$TRAVIS_PYTHON_VERSION = " +:+ dq "2.7") |} |}).
    + reflexivity.
    + apply simulate_run_sound. vm_compute. reflexivity.
    + exists 0. constructor.
    + apply list_elem_of_here.
    + vm_compute. reflexivity.
Defined.

(** ** Installing and pinning numpy *)

Lemma argv_numpy_line vs :
  Job.value vs "NUMPY_VERSION" = "1.15" →
  Job.argv vs Job.numpy_line = ["conda"; "install"; "--yes"; "numpy=1.15"].
Proof.
  intros Hn. unfold Job.numpy_line. open_argv.
  rewrite expand_word_single;
    cbn [forallb existsb Shell.splits_nothing Shell.anchors orb andb
         Shell.word_text foldr Shell.part_text app];
    rewrite ?Hn; reflexivity.
Qed.

Lemma argv_pin_line vs :
  Job.value vs "NUMPY_VERSION" = "1.15" →
  Shell.blank_free (Job.value vs "CONDA_PREFIX") = true →
  Job.argv vs Job.pin_line = ["echo"; "numpy 1.15.*"; ">>"; Job.pinned_path vs].
Proof.
  intros Hn Hp. unfold Job.pin_line. open_argv.
  rewrite !expand_word_single;
    cbn [forallb existsb Shell.splits_nothing Shell.anchors orb andb
         Shell.word_text foldr Shell.part_text app];
    rewrite ?Hn, ?Hp; reflexivity.
Qed.

Lemma argv_requirements vs :
  Job.argv vs "conda install --yes --file requirements.txt"
  = ["conda"; "install"; "--yes"; "--file"; "requirements.txt"].
Proof. open_argv. reflexivity. Qed.

Lemma argv_requirements_extras vs :
  Job.argv vs "conda install --yes --file requirements-extras.txt"
  = ["conda"; "install"; "--yes"; "--file"; "requirements-extras.txt"].
Proof. open_argv. reflexivity. Qed.











(** ** The test-runner invocation *)

(** C5. The [script] phase is one line; whatever the shell holds it starts
    [python run-tests.py] with [-v], with [--mpirun] set to the launcher
    command [mpirun -n 4], that is 4 MPI processes, and with
    [--with-coverage]; no other line of the job starts a python script. *)
Theorem script_runs_tests_once vs :
  Job.argv vs <$> Travis.script Travis.travis_yml
  = [["python"; "run-tests.py"; "-v"; "--mpirun=mpirun -n 4"; "--with-coverage"]]
  ∧ Runner.has_flag "-v" ["-v"; "--mpirun=mpirun -n 4"; "--with-coverage"] = true
  ∧ Runner.option_value "--mpirun" ["-v"; "--mpirun=mpirun -n 4"; "--with-coverage"]
    = Some "mpirun -n 4"
  ∧ Runner.mpi_processes ["-v"; "--mpirun=mpirun -n 4"; "--with-coverage"] = Some 4
  ∧ Runner.has_flag "--with-coverage" ["-v"; "--mpirun=mpirun -n 4"; "--with-coverage"] = true
  ∧ filter (λ ws, Runner.is_python_run ws = true)
      (Job.argv vs <$> Job.job_lines Travis.travis_yml)
    = [["python"; "run-tests.py"; "-v"; "--mpirun=mpirun -n 4"; "--with-coverage"]].
Proof.
  (* None of the words that decide these equations comes from a variable:
     each holds by evaluation, [vs] left as it is. *)
  split_and!; reflexivity.
Qed.

(** ** The dependency manifests *)

Lemma requirement_files_travis vs :
  Job.value vs "NUMPY_VERSION" = "1.15" →
  Job.requirement_files vs Travis.travis_yml
  = ["requirements.txt"; "requirements-extras.txt"].
Proof.
  intros Hn. unfold Job.requirement_files.
  cbn [Travis.install Travis.travis_yml mbind list_bind].
  fold Job.numpy_line Job.pin_line.
  rewrite argv_numpy_line, argv_requirements, argv_requirements_extras by done.
  assert (match Job.classify (Job.argv vs Job.pin_line) with
          | Job.CondaInstall _ reqs => reqs
          | _ => []
          end = []) as ->.
  { unfold Job.pin_line. open_argv. unfold Job.classify.
    change (String.eqb "echo" "export") with false.
    change (String.eqb "echo" "echo") with true. cbv iota.
    destruct (Job.split_redirect _) as [[t p]|]; [done|].
    by destruct (existsb _ _). }
  reflexivity.
Qed.

(** C6. Every package entry of [environment.yml], those under the [pip]
    key included, is a package name alone or a name with a version pinned
    to it, and one of them is pinned, [python=3.6].  The lines of
    [install] hand two requirements files to conda, [requirements.txt] for
    the base dependencies and [requirements-extras.txt] for the extras,
    and these are two files. *)
Theorem dependency_manifests vs :
  Job.value vs "NUMPY_VERSION" = "1.15" →
  forallb Environment.is_package_entry
    (Environment.packages Environment.environment_yml) = true
  ∧ filter (λ s, Environment.is_pinned s = true)
      (Environment.packages Environment.environment_yml) = ["python=3.6"]
  ∧ Job.requirement_files vs Travis.travis_yml
    = ["requirements.txt"; "requirements-extras.txt"]
  ∧ NoDup (Job.requirement_files vs Travis.travis_yml).
Proof.
  intros Hn. rewrite requirement_files_travis by done.
  split_and!; try reflexivity.
  apply NoDup_cons. split; [|apply NoDup_singleton].
  rewrite list_elem_of_singleton. discriminate.
Qed.

Lemma dependency_manifests_witness :
  forallb Environment.is_package_entry
    (Environment.packages Environment.environment_yml) = true
  ∧ filter (λ s, Environment.is_pinned s = true)
      (Environment.packages Environment.environment_yml) = ["python=3.6"]
  ∧ Job.requirement_files (Job.vars (Sample.start Sample.python27)) Travis.travis_yml
    = ["requirements.txt"; "requirements-extras.txt"]
  ∧ NoDup (Job.requirement_files (Job.vars (Sample.start Sample.python27))
             Travis.travis_yml).
Proof.
  apply (dependency_manifests (Job.vars (Sample.start Sample.python27))).
  vm_compute. reflexivity.
Defined.

(** ** The documentation environment *)

(** C10. [conda env create] on [environment.yml], called as the header of
    the file says or without a name, makes an environment called
    [nbodykit-docs] that asks for python of the series 3.6; of the three
    Python versions of the CI matrix that leaves out two, 2.7 and 3.7. *)
Theorem docs_environment :
  Environment.env_name (Environment.env_create None Environment.environment_yml)
  = "nbodykit-docs"
  ∧ Environment.env_name
      (Environment.env_create (Some "nbodykit-docs") Environment.environment_yml)
    = "nbodykit-docs"
  ∧ (∀ cli, Environment.requested
              (Environment.env_create cli Environment.environment_yml) "python"
            = Some (Conda.Series "3.6"))
  ∧ Travis.python Travis.travis_yml = ["2.7"; "3.6"; "3.7"]
  ∧ filter (λ v, Conda.satisfies (Conda.Series "3.6") v = false)
      (Travis.python Travis.travis_yml) = ["2.7"; "3.7"].
Proof. split_and!; try reflexivity. Qed.

(** ** The notebook *)

(** Run on the model of the fields, the code cells write the two shape
    lines that the notebook records; the lines that show floating-point
    numbers are left undetermined. *)
Lemma notebook_agrees :
  ∃ outs,
    Notebook.exec_cells ∅ (Notebook.code_cells Notebook.overview_ipynb) = Some outs
    ∧ Forall2 (λ computed recorded, Notebook.agrees computed recorded = true)
        outs (Notebook.recorded Notebook.overview_ipynb).
Proof.
  eexists. split; [vm_compute; reflexivity|].
  repeat constructor.
Qed.

Lemma notebook_replay :
  Notebook.exec_cells ∅ (Notebook.code_cells Notebook.overview_ipynb)
  = Some [[Some "shape =  (8, 8, 8)"; None];
          [Some "shape =  (8, 8, 5)"; None; None]]
  ∧ Notebook.recorded Notebook.overview_ipynb
    = [["shape =  (8, 8, 8)"; "mean =  1.0"];
       ["shape =  (8, 8, 5)";
        "mean of configuration space field from k=0 =  (1+0j)";
        "mean of real field =  1.0"]].
Proof. split; [vm_compute|]; reflexivity. Qed.

(** Along z, [r2c] keeps fewer entries than the mesh has cells per side as
    soon as the side is more than 2. *)
Lemma complex_shape_truncates (N : Z) :
  (2 < N)%Z → (N / 2 + 1 < N)%Z.
Proof. intros HN. pose proof (Z.div_lt_upper_bound N 2 (N - 1)). lia. Qed.

(** C3. A [RealField] built on a [ParticleMesh] of side [N] has shape
    [(N, N, N)], that is [N^3] cells; run on this model, the first cell of
    the notebook writes the line it records, [shape =  (8, 8, 8)]. *)
Theorem real_field_shape (N : Z) :
  Notebook.eval Notebook.pmesh_imports (Notebook.Attr (Notebook.real_field N) "shape")
  = Some (Notebook.VTuple [N; N; N])
  ∧ Notebook.cells (Notebook.real_shape [N; N; N]) = (N ^ 3)%Z
  ∧ Notebook.str (Notebook.VTuple (Notebook.real_shape [8; 8; 8]%Z)) = Some "(8, 8, 8)"
  ∧ (∃ out rest,
       Notebook.exec_cells ∅ (Notebook.code_cells Notebook.overview_ipynb)
       = Some ((Some "shape =  (8, 8, 8)" :: out) :: rest))
  ∧ (∃ out rest,
       Notebook.recorded Notebook.overview_ipynb
       = ("shape =  (8, 8, 8)" :: out) :: rest).
Proof.
  split_and!.
  - reflexivity.
  - cbn. ring.
  - vm_compute. reflexivity.
  - destruct notebook_replay as [-> _]. eauto.
  - destruct notebook_replay as [_ ->]. eauto.
Qed.

(** C2. The field that [r2c] gives for a [RealField] on a mesh of side [N]
    has shape [(N, N, N/2+1)]: the x and y axes keep [N] entries and the z
    axis alone is cut, to [N/2+1]; for [N = 8] this is [(8, 8, 5)], the
    line that the second cell of the notebook writes and records. *)
Theorem complex_field_shape (N : Z) :
  Notebook.eval Notebook.pmesh_imports
    (Notebook.Attr (Notebook.r2c (Notebook.real_field N)) "shape")
  = Some (Notebook.VTuple [N; N; (N / 2 + 1)%Z])
  ∧ Notebook.complex_shape [8; 8; 8]%Z = [8; 8; 5]%Z
  ∧ (∃ first out,
       Notebook.exec_cells ∅ (Notebook.code_cells Notebook.overview_ipynb)
       = Some [first; Some "shape =  (8, 8, 5)" :: out])
  ∧ (∃ first out,
       Notebook.recorded Notebook.overview_ipynb
       = [first; "shape =  (8, 8, 5)" :: out]).
Proof.
  split_and!.
  - reflexivity.
  - reflexivity.
  - destruct notebook_replay as [-> _]. eauto.
  - destruct notebook_replay as [_ ->]. eauto.
Qed.

(** ** The files of the repository *)

Lemma referenced_travis vs :
  Job.value vs "NUMPY_VERSION" = "1.15" →
  Repository.referenced vs Travis.travis_yml
  = [ ("requirements.txt", Repository.Manifest);
      ("requirements-extras.txt", Repository.Manifest);
      (".", Repository.Package);
      ("run-tests.py", Repository.Script) ].
Proof.
  intros Hn. unfold Repository.referenced.
  cbn [Job.job_lines Travis.before_install Travis.install Travis.script
       Travis.after_success Travis.travis_yml app mbind list_bind].
  fold Job.numpy_line. rewrite argv_numpy_line by done.
  reflexivity.
Qed.

Lemma notebook_calls_overview :
  Notebook.notebook_calls ∅ (Notebook.code_cells Notebook.overview_ipynb)
  = [ ("ParticleMesh", Notebook.Module "pmesh.pm");
      ("RealField", Notebook.Module "pmesh.pm");
      ("print", Notebook.Builtin);
      ("print", Notebook.Builtin);
      ("mean", Notebook.Module "pmesh.pm");
      ("r2c", Notebook.Module "pmesh.pm");
      ("print", Notebook.Builtin);
      ("print", Notebook.Builtin);
      ("c2r", Notebook.Module "pmesh.pm");
      ("print", Notebook.Builtin);
      ("mean", Notebook.Module "pmesh.pm") ].
Proof. vm_compute. reflexivity. Qed.

(** C7, as it is worded, fails: the job of [.travis.yml] runs the script
    [run-tests.py] of the checkout, which is neither configuration nor a
    manifest nor documentation. *)
Lemma repository_not_only_configuration :
  ¬ Repository.only_configuration
      (Repository.repository (Job.vars (Sample.start Sample.python27))).
Proof.
  unfold Repository.repository, Repository.only_configuration.
  rewrite referenced_travis by (vm_compute; reflexivity).
  rewrite Forall_forall. intros H.
  specialize (H ("run-tests.py", Repository.Script)).
  cbn in H. discriminate H. set_solver.
Qed.

(** C7, amended.  The files given are configuration, a manifest and a
    documentation notebook.  The lines of the job refer to four more files
    of the checkout, which are not given: the two requirements files, the
    project that [pip install .[extras]] installs and the script
    [run-tests.py].  In the notebook every call is to a builtin or to what
    was imported from [pmesh.pm]; [r2c] and [c2r] are each called once, on
    objects of [pmesh.pm]. *)
Theorem supplied_files_call_pmesh b j machine :
  j ∈ Travis.matrix Travis.travis_yml →
  Repository.only_configuration Repository.supplied
  ∧ Repository.referenced (Travis.job_vars b j machine) Travis.travis_yml
    = [ ("requirements.txt", Repository.Manifest);
        ("requirements-extras.txt", Repository.Manifest);
        (".", Repository.Package);
        ("run-tests.py", Repository.Script) ]
  ∧ Forall (λ c, c.2 = Notebook.Builtin ∨ c.2 = Notebook.Module "pmesh.pm")
      (Notebook.notebook_calls ∅ (Notebook.code_cells Notebook.overview_ipynb))
  ∧ filter (λ c, c.1 ∈ ["r2c"; "c2r"])
      (Notebook.notebook_calls ∅ (Notebook.code_cells Notebook.overview_ipynb))
    = [ ("r2c", Notebook.Module "pmesh.pm"); ("c2r", Notebook.Module "pmesh.pm") ].
Proof.
  intros Hj. split_and!.
  - unfold Repository.only_configuration, Repository.supplied.
    repeat apply List.Forall_cons; try apply List.Forall_nil; reflexivity.
  - apply referenced_travis. by apply job_numpy_version.
  - rewrite notebook_calls_overview.
    repeat apply List.Forall_cons; try apply List.Forall_nil; cbn; auto.
  - rewrite notebook_calls_overview. vm_compute. reflexivity.
Qed.

Lemma supplied_files_call_pmesh_witness :
  Repository.only_configuration Repository.supplied
  ∧ Repository.referenced
      (Travis.job_vars Sample.tagged Sample.python27 Sample.machine) Travis.travis_yml
    = [ ("requirements.txt", Repository.Manifest);
        ("requirements-extras.txt", Repository.Manifest);
        (".", Repository.Package);
        ("run-tests.py", Repository.Script) ]
  ∧ Forall (λ c, c.2 = Notebook.Builtin ∨ c.2 = Notebook.Module "pmesh.pm")
      (Notebook.notebook_calls ∅ (Notebook.code_cells Notebook.overview_ipynb))
  ∧ filter (λ c, c.1 ∈ ["r2c"; "c2r"])
      (Notebook.notebook_calls ∅ (Notebook.code_cells Notebook.overview_ipynb))
    = [ ("r2c", Notebook.Module "pmesh.pm"); ("c2r", Notebook.Module "pmesh.pm") ].
Proof.
  apply (supplied_files_call_pmesh Sample.tagged Sample.python27 Sample.machine).
  rewrite matrix_travis. apply list_elem_of_here.
Defined.

(** * Further properties of the job *)

(** ** The variables of the shell *)

(** X1. The lines of the job never assign [NUMPY_VERSION],
    [TRAVIS_PYTHON_VERSION], [TRAVIS_TAG] or [HOME]: wherever the job has
    got to, each of them holds the value the job started with. *)
Theorem job_variables_constant x k s0 s :
  x ∈ ["NUMPY_VERSION"; "TRAVIS_PYTHON_VERSION"; "TRAVIS_TAG"; "HOME"] →
  Job.run (take k (Job.job_lines Travis.travis_yml)) s0 s →
  Job.value (Job.vars s) x = Job.value (Job.vars s0) x.
Proof.
  intros Hx Hrun. apply (value_untouched x _ _ _ Hrun).
  apply Forall_take, travis_keeps.
  rewrite !elem_of_cons, elem_of_nil in Hx.
  destruct Hx as [->|[->|[->|[->|[]]]]]; reflexivity.
Qed.

Lemma job_variables_constant_witness :
  Job.value (Job.vars (Sample.after (take 17 (Job.job_lines Travis.travis_yml))
                         Sample.python37)) "NUMPY_VERSION"
  = Job.value (Job.vars (Sample.start Sample.python37)) "NUMPY_VERSION".
Proof.
  apply (job_variables_constant "NUMPY_VERSION" 17).
  - apply list_elem_of_here.
  - apply simulate_run_sound. vm_compute. reflexivity.
Defined.

Lemma path_line_export vs :
  Job.classify (Job.argv vs Setup.path_line)
  = Job.Export "PATH"
      (Job.value vs "HOME" +:+ "/miniconda/bin:" +:+ Job.value vs "PATH").
Proof.
  unfold Setup.path_line. open_argv.
  rewrite expand_word_unsplit by done.
  cbn [app Shell.word_text foldr Shell.part_text].
  rewrite !append_cons, append_empty_r. reflexivity.
Qed.

Lemma exec_export_inv x v s s' :
  Job.exec (Job.Export x v) s s' →
  Job.vars s' = <[x := v]> (Job.vars s).
Proof. by inversion 1; subst. Qed.

Lemma before_install_path s0 s :
  Job.run (Travis.before_install Travis.travis_yml) s0 s →
  Job.value (Job.vars s) "PATH"
  = Job.value (Job.vars s0) "HOME" +:+ "/miniconda/bin:"
    +:+ Job.value (Job.vars s0) "PATH".
Proof.
  intros Hrun.
  change (Travis.before_install Travis.travis_yml)
    with (take 3 (Travis.before_install Travis.travis_yml)
          ++ [Setup.path_line]
          ++ drop 4 (Travis.before_install Travis.travis_yml)) in Hrun.
  apply run_app in Hrun as (s3 & H3 & Hrun).
  apply run_app in Hrun as (s4 & H4 & Hrun).
  assert (∀ x, Forall (Job.keeps x)
                 (take 3 (Travis.before_install Travis.travis_yml))) as K3.
  { intros x. repeat (apply List.Forall_cons); try apply List.Forall_nil;
      intros vs; open_argv; by apply classify_keeps. }
  assert (Forall (Job.keeps "PATH")
            (drop 4 (Travis.before_install Travis.travis_yml))) as K5.
  { repeat (apply List.Forall_cons); try apply List.Forall_nil;
      intros vs; open_argv; try (by apply classify_keeps). reflexivity. }
  rewrite (value_untouched "PATH" _ _ _ Hrun K5).
  apply run_cons_inv in H4 as (s4' & He & Hn). apply run_nil_inv in Hn as ->.
  rewrite path_line_export in He. apply exec_export_inv in He.
  unfold Job.value at 1. rewrite He, lookup_insert_eq. cbn [default from_option].
  unfold id.
  by rewrite (value_untouched "PATH" _ _ _ H3 (K3 _)),
             (value_untouched "HOME" _ _ _ H3 (K3 _)).
Qed.

(** X2. When [before_install] has run, [PATH] is the [PATH] the job
    started with, with [$HOME/miniconda/bin] put in front of it, whatever
    [HOME] holds (the assignment is not split at blanks); [HOME] itself is
    as it was. *)
Theorem path_after_before_install s0 s :
  Job.run (Travis.before_install Travis.travis_yml) s0 s →
  Job.value (Job.vars s) "PATH"
  = Job.value (Job.vars s0) "HOME" +:+ "/miniconda/bin:"
    +:+ Job.value (Job.vars s0) "PATH"
  ∧ Job.value (Job.vars s) "HOME" = Job.value (Job.vars s0) "HOME".
Proof.
  intros Hrun. split; [by apply before_install_path|].
  apply (value_untouched "HOME" _ _ _ Hrun).
  pose proof (travis_keeps "HOME" eq_refl) as Hk.
  unfold Job.job_lines in Hk. by apply Forall_app in Hk as [Hk _].
Qed.

Lemma path_after_before_install_witness :
  let s0 := Sample.start Sample.python27 in
  let s := Sample.after (Travis.before_install Travis.travis_yml) Sample.python27 in
  Job.value (Job.vars s) "PATH"
  = Job.value (Job.vars s0) "HOME" +:+ "/miniconda/bin:"
    +:+ Job.value (Job.vars s0) "PATH"
  ∧ Job.value (Job.vars s) "HOME" = Job.value (Job.vars s0) "HOME".
Proof.
  apply path_after_before_install.
  apply simulate_run_sound. vm_compute. reflexivity.
Defined.

Lemma later_lines_keep_https :
  Forall (Job.keeps "PYTHONHTTPSVERIFY")
    (drop 5 (Job.job_lines Travis.travis_yml)).
Proof.
  repeat (apply List.Forall_cons); try apply List.Forall_nil;
    intros vs; open_argv; try (by apply classify_keeps). reflexivity.
Qed.

(** X3. From the fifth line of the job on, that is once
    [export PYTHONHTTPSVERIFY=0] has run, [PYTHONHTTPSVERIFY] is [0] and
    stays [0] through [install], [script] and [after_success], in every
    job whatever its Python version. *)
Theorem https_verify_off k s0 s :
  5 ≤ k →
  Job.run (take k (Job.job_lines Travis.travis_yml)) s0 s →
  Job.value (Job.vars s) "PYTHONHTTPSVERIFY" = "0".
Proof.
  intros Hk Hrun.
  assert (take k (Job.job_lines Travis.travis_yml)
          = take 4 (Job.job_lines Travis.travis_yml)
            ++ ["export PYTHONHTTPSVERIFY=0"]
            ++ take (k - 5) (drop 5 (Job.job_lines Travis.travis_yml))) as Hsplit.
  { rewrite <- (take_drop 5 (Job.job_lines Travis.travis_yml)) at 1.
    rewrite take_app_ge by (simpl; lia). reflexivity. }
  rewrite Hsplit in Hrun.
  apply run_app in Hrun as (s4 & _ & Hrun).
  apply run_app in Hrun as (s5 & H5 & Hrun).
  rewrite (value_untouched _ _ _ _ Hrun)
    by (apply Forall_take, later_lines_keep_https).
  apply run_cons_inv in H5 as (s5' & He & Hn). apply run_nil_inv in Hn as ->.
  assert (Job.classify (Job.argv (Job.vars s4) "export PYTHONHTTPSVERIFY=0")
          = Job.Export "PYTHONHTTPSVERIFY" "0") as Hc by (open_argv; reflexivity).
  rewrite Hc in He. apply exec_export_inv in He.
  unfold Job.value. by rewrite He, lookup_insert_eq.
Qed.

Lemma https_verify_off_witness :
  Job.value (Job.vars (Sample.after (take 17 (Job.job_lines Travis.travis_yml))
                         Cases.python36)) "PYTHONHTTPSVERIFY" = "0".
Proof.
  apply (https_verify_off 17 (Sample.start Cases.python36)).
  - lia.
  - apply simulate_run_sound. vm_compute. reflexivity.
Defined.

(** ** The Miniconda installer *)

Lemma argv_installer_line vs :
  Shell.blank_free (Job.value vs "HOME") = true →
  Job.argv vs Setup.installer_line
  = ["./miniconda.sh"; "-b"; "-p"; Job.value vs "HOME" +:+ "/miniconda"].
Proof.
  intros Hh. unfold Setup.installer_line. open_argv.
  rewrite expand_word_single;
    cbn [forallb existsb Shell.splits_nothing Shell.anchors orb andb
         Shell.word_text foldr Shell.part_text app];
    rewrite ?Hh, ?append_empty_r; reflexivity.
Qed.

Lemma word_safe_blank_free v :
  Setup.word_safe v = true → Shell.blank_free v = true.
Proof.
  unfold Setup.word_safe. induction v as [|c v IH]; [done|].
  cbn [Environment.all_chars Shell.blank_free]. intros [Hc Hv]%andb_prop.
  rewrite (IH Hv), andb_true_r. apply negb_true_iff.
  unfold Setup.safe_char in Hc. apply negb_true_iff in Hc.
  unfold Shell.is_blank. cbv zeta in Hc |- *.
  by destruct (nat_of_ascii c =? 32), (nat_of_ascii c =? 9).
Qed.

(** X4. When [HOME] holds none of the characters that bash splits or
    expands an unquoted word at (blanks, newline, [*], [?], [[], the
    backslash), the directory that heads [PATH] after [before_install] is
    the [bin] directory of the prefix [-p] that the Miniconda installer
    was given, [$HOME/miniconda]. *)
Theorem installer_prefix_on_path s0 s :
  Setup.word_safe (Job.value (Job.vars s0) "HOME") = true →
  Job.run (Travis.before_install Travis.travis_yml) s0 s →
  ∃ prefix,
    Setup.installer_prefix (Job.argv (Job.vars s0) Setup.installer_line) = Some prefix
    ∧ prefix = Job.value (Job.vars s0) "HOME" +:+ "/miniconda"
    ∧ Job.value (Job.vars s) "PATH"
      = prefix +:+ "/bin:" +:+ Job.value (Job.vars s0) "PATH".
Proof.
  intros Hh%word_safe_blank_free Hrun. eexists. split; [|split; [reflexivity|]].
  - by rewrite argv_installer_line.
  - rewrite (before_install_path s0 s Hrun). by rewrite append_assoc.
Qed.

Lemma installer_prefix_on_path_witness :
  let s0 := Sample.start Sample.python27 in
  let s := Sample.after (Travis.before_install Travis.travis_yml) Sample.python27 in
  ∃ prefix,
    Setup.installer_prefix (Job.argv (Job.vars s0) Setup.installer_line) = Some prefix
    ∧ prefix = Job.value (Job.vars s0) "HOME" +:+ "/miniconda"
    ∧ Job.value (Job.vars s) "PATH"
      = prefix +:+ "/bin:" +:+ Job.value (Job.vars s0) "PATH".
Proof.
  apply installer_prefix_on_path.
  - vm_compute. reflexivity.
  - apply simulate_run_sound. vm_compute. reflexivity.
Defined.

(** The fields that the value of an unquoted reference ends are added
    after those already there. *)
Lemma split_value_done v cur done :
  ∃ more, (Shell.split_value v cur done).2 = done ++ more.
Proof.
  revert cur done. induction v as [|c v IH]; intros cur done; cbn [Shell.split_value].
  - exists []. by rewrite app_nil_r.
  - destruct (Shell.is_blank c).
    + destruct (IH None (Shell.end_field cur done)) as [more ->].
      destruct cur as [w|]; cbn [Shell.end_field].
      * exists (w :: more). by rewrite <- app_assoc.
      * by exists more.
    + apply IH.
Qed.

Lemma split_value_app_blank_free a rest cur done :
  Shell.blank_free a = true →
  Shell.split_value (a +:+ rest) (Some cur) done
  = Shell.split_value rest (Some (cur +:+ a)) done.
Proof.
  revert cur. induction a as [|c a IH]; intros cur Ha.
  - by rewrite append_empty_r.
  - cbn in Ha. apply andb_prop in Ha as [Hc Ha]. apply negb_true_iff in Hc.
    rewrite append_cons. cbn [Shell.split_value]. rewrite Hc.
    cbn [default from_option]. unfold id.
    rewrite IH by done. unfold Shell.snoc. by rewrite append_assoc.
Qed.

(** X5. A space in [HOME]: [$HOME] stands unquoted in the installer
    line, so when [HOME] is a text [a] that bash would leave as one word,
    then a space, then anything, the installer is handed [a] as its
    prefix, not [$HOME/miniconda]. *)
Theorem installer_prefix_cut_at_blank vs a b :
  Job.value vs "HOME" = a +:+ " " +:+ b →
  Setup.word_safe a = true → a ≠ EmptyString →
  Setup.installer_prefix (Job.argv vs Setup.installer_line) = Some a.
Proof.
  intros Hh Ha%word_safe_blank_free Hne. unfold Setup.installer_line. open_argv.
  unfold Shell.expand_word. cbn [fold_left Shell.expand_part orb negb fst snd].
  rewrite Hh. destruct a as [|c a]; [done|].
  cbn in Ha. apply andb_prop in Ha as [Hc Ha]. apply negb_true_iff in Hc.
  rewrite append_cons. cbn [Shell.split_value]. rewrite Hc.
  cbn [default from_option]. unfold id, Shell.snoc.
  change (EmptyString +:+ String c EmptyString) with (String c EmptyString).
  rewrite split_value_app_blank_free by done.
  rewrite append_cons. cbn [Shell.split_value].
  change (Shell.is_blank " ") with true. cbv iota. cbn [Shell.end_field app].
  change (EmptyString +:+ b) with b.
  change (String c EmptyString +:+ a) with (String c a).
  destruct (split_value_done b None [String c a]) as [more Hm].
  destruct (Shell.split_value b None _) as [cur' done'].
  cbn [fst snd] in *. subst done'. reflexivity.
Qed.

Lemma installer_prefix_cut_at_blank_witness :
  Setup.installer_prefix (Job.argv Cases.spaced Setup.installer_line)
  = Some "/home/my".
Proof.
  apply (installer_prefix_cut_at_blank Cases.spaced "/home/my" "user").
  - vm_compute. reflexivity.
  - reflexivity.
  - discriminate.
Defined.

(** ** The test environment *)

(** X6. In every job of the matrix, when [before_install] has run, the
    [conda create] line creates the environment [test] with the python of
    the series the job is for, and the line after it activates that same
    environment. *)
Theorem test_env_python b j machine s0 s :
  j ∈ Travis.matrix Travis.travis_yml →
  Job.vars s0 = Travis.job_vars b j machine →
  Job.run (Travis.before_install Travis.travis_yml) s0 s →
  Job.argv (Job.vars s) Setup.create_line
  = ["conda"; "create"; "--yes"; "-n"; "test"; "python=" +:+ Travis.job_python j]
  ∧ Conda.parse_spec ("python=" +:+ Travis.job_python j)
    = ("python", Conda.Series (Travis.job_python j))
  ∧ Setup.created_env (Job.argv (Job.vars s) Setup.create_line) = Some "test"
  ∧ Job.classify (Job.argv (Job.vars s) Setup.activate_line) = Job.Activate "test".
Proof.
  intros Hj H0 Hrun.
  assert (Job.value (Job.vars s) "TRAVIS_PYTHON_VERSION" = Travis.job_python j) as Hv.
  { rewrite (value_untouched _ _ _ _ Hrun).
    - rewrite H0. by apply job_python_version.
    - pose proof (travis_keeps "TRAVIS_PYTHON_VERSION" eq_refl) as Hk.
      unfold Job.job_lines in Hk. by apply Forall_app in Hk as [Hk _]. }
  assert (Shell.blank_free (Travis.job_python j) = true
          ∧ Conda.parse_spec ("python=" +:+ Travis.job_python j)
            = ("python", Conda.Series (Travis.job_python j))) as [Hb Hp].
  { apply matrix_job_python in Hj. rewrite !elem_of_cons, elem_of_nil in Hj.
    destruct Hj as [->|[->|[->|[]]]]; split; reflexivity. }
  assert (Job.argv (Job.vars s) Setup.create_line
          = ["conda"; "create"; "--yes"; "-n"; "test";
             "python=" +:+ Travis.job_python j]) as Ha.
  { unfold Setup.create_line. open_argv.
    rewrite expand_word_single;
      cbn [forallb existsb Shell.splits_nothing Shell.anchors orb andb
           Shell.word_text foldr Shell.part_text app];
      rewrite ?Hv, ?Hb, ?append_empty_r; reflexivity. }
  split_and!; [done|done| |].
  - rewrite Ha. reflexivity.
  - unfold Setup.activate_line. open_argv. reflexivity.
Qed.

Lemma test_env_python_witness :
  let s := Sample.after (Travis.before_install Travis.travis_yml) Sample.python37 in
  Job.argv (Job.vars s) Setup.create_line
  = ["conda"; "create"; "--yes"; "-n"; "test";
     "python=" +:+ Travis.job_python Sample.python37]
  ∧ Conda.parse_spec ("python=" +:+ Travis.job_python Sample.python37)
    = ("python", Conda.Series (Travis.job_python Sample.python37))
  ∧ Setup.created_env (Job.argv (Job.vars s) Setup.create_line) = Some "test"
  ∧ Job.classify (Job.argv (Job.vars s) Setup.activate_line) = Job.Activate "test".
Proof.
  apply (test_env_python Sample.tagged Sample.python37 Sample.machine
           (Sample.start Sample.python37)).
  - rewrite matrix_travis. do 2 apply list_elem_of_further. apply list_elem_of_here.
  - reflexivity.
  - apply simulate_run_sound. vm_compute. reflexivity.
Defined.

(** ** The version that is installed and the version that is pinned *)















(** ** Deployment *)

Lemma deploys_python27 b j s0 u :
  j ∈ Travis.matrix Travis.travis_yml →
  Job.deploys Travis.travis_yml b j s0 u →
  Travis.job_python j = "2.7" ∧ u = Job.Upload "pypi" "sdist" "nickhand".
Proof.
  intros Hj Hd. destruct Hd as [machine s1 s2 d H0 Hrun Hreach Hd Hon].
  cbn [Travis.deploy Travis.travis_yml] in Hd.
  apply list_elem_of_singleton in Hd as ->.
  unfold Job.on_holds in Hon.
  cbn [Travis.on Travis.on_tags Travis.on_condition] in Hon.
  apply andb_prop in Hon as [_ Hcond].
  rewrite test_python27 in Hcond. apply String.eqb_eq in Hcond.
  rewrite (deploy_time_value Travis.travis_yml _ s0 s1 s2) in Hcond;
    [|by apply travis_keeps|done|done].
  rewrite H0, job_python_version in Hcond by done.
  done.
Qed.

(** X8. In one build at most one job of the matrix deploys, and so the
    source distribution is uploaded at most once: two jobs that deploy
    are the same job and make the same upload. *)
Theorem one_deploy_per_build b j1 j2 s1 s2 u1 u2 :
  j1 ∈ Travis.matrix Travis.travis_yml →
  j2 ∈ Travis.matrix Travis.travis_yml →
  Job.deploys Travis.travis_yml b j1 s1 u1 →
  Job.deploys Travis.travis_yml b j2 s2 u2 →
  j1 = j2 ∧ u1 = u2.
Proof.
  intros Hj1 Hj2 Hd1 Hd2.
  destruct (deploys_python27 _ _ _ _ Hj1 Hd1) as [Hp1 ->].
  destruct (deploys_python27 _ _ _ _ Hj2 Hd2) as [Hp2 ->].
  split; [|done].
  pose proof (matrix_job_env _ Hj1) as He1. pose proof (matrix_job_env _ Hj2) as He2.
  destruct j1, j2; cbn in *. congruence.
Qed.

Lemma sample_deploys :
  Job.deploys Travis.travis_yml Sample.tagged Sample.python27
    (Sample.start Sample.python27) (Job.Upload "pypi" "sdist" "nickhand").
Proof.
  apply (deploy_when_tag_and_python27 _ _ Sample.machine _
           (Sample.after (Travis.before_install Travis.travis_yml
                          ++ Travis.install Travis.travis_yml
                          ++ Travis.script Travis.travis_yml) Sample.python27)).
  - rewrite matrix_travis. apply list_elem_of_here.
  - reflexivity.
  - apply simulate_run_sound. vm_compute. reflexivity.
  - reflexivity.
  - reflexivity.
Qed.

Lemma one_deploy_per_build_witness :
  Sample.python27 = Sample.python27
  ∧ Job.Upload "pypi" "sdist" "nickhand" = Job.Upload "pypi" "sdist" "nickhand".
Proof.
  apply (one_deploy_per_build Sample.tagged Sample.python27 Sample.python27
           (Sample.start Sample.python27) (Sample.start Sample.python27)).
  - rewrite matrix_travis. apply list_elem_of_here.
  - rewrite matrix_travis. apply list_elem_of_here.
  - apply sample_deploys.
  - apply sample_deploys.
Defined.

(** ** A run of the whole job *)

Lemma blank_free_app s t :
  Shell.blank_free (s +:+ t) = Shell.blank_free s && Shell.blank_free t.
Proof.
  induction s as [|c s IH]; [done|]. rewrite append_cons. cbn [Shell.blank_free].
  by rewrite IH, andb_assoc.
Qed.


(** X9. In every job of the matrix, on any machine whose [HOME] holds no
    blank and where no pinned file has been written yet, the lines of the
    job can all succeed: no line is malformed, and the pin does not stand
    against the numpy that was installed.  At the end of such a run numpy
    is installed in the series 1.15 and pinned; and if the build is for a
    tag and the job is the python 2.7 one, the job deploys the source
    distribution to PyPI. *)
Theorem job_can_run b j machine ps0 :
  j ∈ Travis.matrix Travis.travis_yml →
  Shell.blank_free (Job.value machine "HOME") = true →
  let s0 := Job.State (Travis.job_vars b j machine) ∅ ps0 in
  ∃ s, Job.run (Job.job_lines Travis.travis_yml) s0 s
       ∧ Job.numpy_115 s ∧ Job.numpy_pinned s
       ∧ (Job.is_tag b = true → Travis.job_python j = "2.7" →
          Job.deploys Travis.travis_yml b j s0 (Job.Upload "pypi" "sdist" "nickhand")).
Proof.
  intros Hj Hh s0. unfold s0.
  set (vs0 := Travis.job_vars b j machine).
  assert (Job.value vs0 "NUMPY_VERSION" = "1.15") as Hn0 by (by apply job_numpy_version).
  assert (Job.value vs0 "HOME" = Job.value machine "HOME") as Hh0.
  { unfold vs0, Job.value. rewrite job_vars_matrix by done.
    by rewrite !lookup_insert_ne by done. }
  set (prefix := Job.value vs0 "HOME" +:+ "/miniconda/envs/test").
  assert (Shell.blank_free prefix = true) as Hpre.
  { unfold prefix. by rewrite blank_free_app, Hh0, Hh. }
  assert (∃ s, Job.run (Job.job_lines Travis.travis_yml) (Job.State vs0 ∅ ps0) s
               ∧ Job.numpy_115 s ∧ Job.numpy_pinned s) as (s & Hrun & H115 & Hpin).
  { eexists. split.
    - cbn [Job.job_lines Travis.before_install Travis.install Travis.script
           Travis.after_success Travis.travis_yml app].
      do 3 run_program.
      eapply Job.run_cons.
      { fold Setup.path_line. rewrite path_line_export. apply Job.exec_export. }
      cbn [Job.vars Job.files Job.pkgs].
      eapply Job.run_cons.
      { open_argv. change (Job.classify _) with (Job.Export "PYTHONHTTPSVERIFY" "0").
        apply Job.exec_export. }
      cbn [Job.vars Job.files Job.pkgs].
      do 2 run_program.
      match goal with |- Job.run _ (Job.State ?vs _ _) _ => set (vs2 := vs) end.
      eapply Job.run_cons.
      { open_argv. change (Job.classify _) with (Job.Activate "test").
        apply (Job.exec_activate "test" _ (<["CONDA_PREFIX" := prefix]> vs2) ∅).
        - intros x Hx. apply lookup_insert_ne. by intros <-.
        - unfold Job.value. by rewrite lookup_insert_eq. }
      cbn [Job.vars Job.files Job.pkgs].
      do 2 run_program.
      set (vs3 := <["CONDA_PREFIX" := prefix]> vs2).
      assert (Job.value vs3 "NUMPY_VERSION" = "1.15") as Hn3.
      { unfold vs3, vs2, Job.value. rewrite !lookup_insert_ne by done. exact Hn0. }
      assert (Job.value vs3 "CONDA_PREFIX" = prefix) as Hp3.
      { unfold vs3, Job.value. by rewrite lookup_insert_eq. }
      eapply Job.run_cons.
      { cbn [Job.vars]. fold Job.numpy_line. rewrite (argv_numpy_line vs3 Hn3).
        change (Job.classify _) with (Job.CondaInstall ["numpy=1.15"] []).
        apply (Job.exec_conda_install _ _ _ {[ "numpy" := "1.15.0" ]}).
        - vm_compute. reflexivity.
        - unfold Job.pins. cbn [Job.files]. by rewrite lookup_empty. }
      cbn [Job.vars Job.files Job.pkgs].
      eapply Job.run_cons.
      { cbn [Job.vars]. fold Job.pin_line.
        rewrite (argv_pin_line vs3 Hn3) by (by rewrite Hp3).
        change (Job.classify _)
          with (Job.Append "numpy 1.15.*" (Job.pinned_path vs3)).
        apply Job.exec_append. }
      cbn [Job.vars Job.files Job.pkgs]. rewrite lookup_empty. cbn [default from_option app].
      unfold id. cbn [app].
      assert (Job.pins (Job.State vs3 (<[Job.pinned_path vs3 := ["numpy 1.15.*"]]> ∅)
                          {[ "numpy" := "1.15.0" ]})
              = [("numpy", Conda.Series "1.15")]) as Hpins.
      { unfold Job.pins. cbn [Job.vars Job.files]. by rewrite lookup_insert_eq. }
      eapply Job.run_cons.
      { rewrite argv_requirements.
        change (Job.classify _) with (Job.CondaInstall [] ["requirements.txt"]).
        apply (Job.exec_conda_install _ _ _ {[ "numpy" := "1.15.0" ]}).
        - reflexivity.
        - rewrite Hpins. vm_compute. reflexivity. }
      cbn [Job.vars Job.files Job.pkgs].
      eapply Job.run_cons.
      { rewrite argv_requirements_extras.
        change (Job.classify _) with (Job.CondaInstall [] ["requirements-extras.txt"]).
        apply (Job.exec_conda_install _ _ _ {[ "numpy" := "1.15.0" ]}).
        - reflexivity.
        - rewrite Hpins. vm_compute. reflexivity. }
      cbn [Job.vars Job.files Job.pkgs].
      do 4 run_program.
      apply Job.run_nil.
    - split.
      + exists "1.15.0". split; [|reflexivity]. cbn [Job.pkgs]. apply lookup_singleton_eq.
      + unfold Job.numpy_pinned, Job.pins. cbn [Job.vars Job.files].
        rewrite lookup_insert_eq. vm_compute. apply list_elem_of_here. }
  exists s. split_and!; try done.
  intros Htag Hpy.
  unfold Job.job_lines in Hrun. rewrite !app_assoc in Hrun.
  apply run_app in Hrun as (s1 & Hrun & _). rewrite <- !app_assoc in Hrun.
  by apply (deploy_when_tag_and_python27 b j machine _ s1).
Qed.

Lemma job_can_run_witness :
  let s0 := Job.State (Travis.job_vars Sample.tagged Sample.python27 Sample.machine) ∅ ∅ in
  ∃ s, Job.run (Job.job_lines Travis.travis_yml) s0 s
       ∧ Job.numpy_115 s ∧ Job.numpy_pinned s
       ∧ (Job.is_tag Sample.tagged = true → Travis.job_python Sample.python27 = "2.7" →
          Job.deploys Travis.travis_yml Sample.tagged Sample.python27 s0
            (Job.Upload "pypi" "sdist" "nickhand")).
Proof.
  apply (job_can_run Sample.tagged Sample.python27 Sample.machine ∅).
  - rewrite matrix_travis. apply list_elem_of_here.
  - vm_compute. reflexivity.
Defined.

(** ** Channels *)

(** X11. Whatever the shell holds, the lines of the job put two channels
    in front of those conda searches, [bccp] first and [astropy] after
    it; with [defaults] they are the channels of [environment.yml]. *)
Theorem ci_channels vs chs :
  Setup.channels_after vs (Job.job_lines Travis.travis_yml) chs
  = "bccp" :: "astropy" :: chs
  ∧ (∀ c, c ∈ Environment.channels Environment.environment_yml ↔
          c = "defaults" ∨ c ∈ Setup.channels_after vs (Job.job_lines Travis.travis_yml) []).
Proof.
  assert (∀ chs, Setup.channels_after vs (Job.job_lines Travis.travis_yml) chs
          = "bccp" :: "astropy" :: chs) as H by reflexivity.
  split; [apply H|]. intros c. rewrite H.
  cbn [Environment.channels Environment.environment_yml].
  rewrite !elem_of_cons, !elem_of_nil. tauto.
Qed.

(** ** The condition of the deployment *)

(** X12. The [condition] of the [on] block holds exactly when
    [TRAVIS_PYTHON_VERSION] is set and is the text [2.7]: it fails when
    the variable is not set, and for any other text, a longer version
    such as [2.7.15] included. *)
Theorem deploy_condition_exact (vs : gmap string string) d :
  d ∈ Travis.deploy Travis.travis_yml →
  (∃ cond, Travis.on_condition (Travis.on d) = Some cond
           ∧ (Job.test vs cond = true ↔ vs !! "TRAVIS_PYTHON_VERSION" = Some "2.7")
           ∧ (vs !! "TRAVIS_PYTHON_VERSION" = None → Job.test vs cond = false)
           ∧ (vs !! "TRAVIS_PYTHON_VERSION" = Some "2.7.15" → Job.test vs cond = false)).
Proof.
  cbn [Travis.deploy Travis.travis_yml]. intros ->%list_elem_of_singleton.
  eexists. split; [reflexivity|]. rewrite test_python27. unfold Job.value.
  split_and!.
  - rewrite String.eqb_eq.
    destruct (vs !! "TRAVIS_PYTHON_VERSION") as [v|]; cbn; split; intros H;
      by simplify_eq.
  - by intros ->.
  - by intros ->.
Qed.

Lemma deploy_condition_exact_witness :
  ∃ cond,
    Travis.on_condition
      (Travis.on {| Travis.provider := "pypi"; Travis.distributions := "sdist";
                    Travis.user := "nickhand"; Travis.password_secure := true;
                    Travis.on := {| Travis.on_tags := true;
                                    Travis.on_condition :=
                                      Some ("$TRAVIS_PYTHON_VERSION = " +:+ dq "2.7") |} |})
    = Some cond
    ∧ (Job.test Cases.spaced cond = true
       ↔ Cases.spaced !! "TRAVIS_PYTHON_VERSION" = Some "2.7")
    ∧ (Cases.spaced !! "TRAVIS_PYTHON_VERSION" = None → Job.test Cases.spaced cond = false)
    ∧ (Cases.spaced !! "TRAVIS_PYTHON_VERSION" = Some "2.7.15"
       → Job.test Cases.spaced cond = false).
Proof.
  apply (deploy_condition_exact Cases.spaced). apply list_elem_of_here.
Defined.
